(** * MQTT to Telegram bridge: the message handler of [mqtt_telegram.py]

    A shallow embedding of [get_ip_info], [send_telegram_message] and
    [on_message], and the properties of the message-transformation pipeline.

    Python strings are modelled as UTF-8 byte strings ([string]); every
    operation the handler performs on text (concatenation, comparison with
    ASCII constants, [split] on a colon, substring test) commutes with the
    UTF-8 encoding.  Values produced by [json.loads] are modelled by [pyval];
    floats are IEEE binary64 numbers in the representation of [SpecFloat]. *)

From Stdlib Require Import ZArith List String Ascii Bool Lia.
From Stdlib Require Import DecimalString DecimalPos.
From Stdlib Require Import Floats.SpecFloat.
Import ListNotations.

Open Scope string_scope.
Open Scope Z_scope.

(** ** Text operations of the Python runtime that the handler uses *)

Module PyStr.

(** The character the source writes as a backslash followed by n. *)
Definition nl : string := String (ascii_of_nat 10) EmptyString.

(** [sub in s] for two strings. *)
Fixpoint contains (sub s : string) : bool :=
  if prefix sub s then true
  else match s with
       | EmptyString => false
       | String _ s' => contains sub s'
       end.

(** [s.split(sep)] for a one-character separator: never the empty list. *)
Fixpoint split (sep : ascii) (s : string) : list string :=
  match s with
  | EmptyString => [EmptyString]
  | String c s' =>
      if Ascii.eqb c sep then EmptyString :: split sep s'
      else match split sep s' with
           | w :: ws => String c w :: ws
           | [] => [String c EmptyString]
           end
  end.

(** [l[-1]] on a list of strings that is known not to be empty. *)
Definition last_item (l : list string) : string := last l EmptyString.

(** [sep.join(parts)]. *)
Definition join (sep : string) (parts : list string) : string :=
  concat sep parts.

(** [s[:n]]. *)
Definition take (n : nat) (s : string) : string := substring 0 n s.

(** [str(n)] for an integer. *)
Definition of_Z (n : Z) : string := NilZero.string_of_int (Z.to_int n).

Definition digit (n : Z) : ascii := ascii_of_N (48 + Z.to_N (n mod 10)).

(** The last [k] decimal digits of [n], zero-padded on the left. *)
Fixpoint digits (k : nat) (n : Z) : string :=
  match k with
  | O => EmptyString
  | S k' => digits k' (n / 10) ++ String (digit n) EmptyString
  end.

Definition is_digit (c : ascii) : bool :=
  ((48 <=? N_of_ascii c) && (N_of_ascii c <=? 57))%N.

Fixpoint all_digits (s : string) : bool :=
  match s with
  | EmptyString => true
  | String c s' => is_digit c && all_digits s'
  end.

(** No occurrence of the character [c] in [s]. *)
Fixpoint free_of (c : ascii) (s : string) : bool :=
  match s with
  | EmptyString => true
  | String d s' => negb (Ascii.eqb d c) && free_of c s'
  end.

End PyStr.

(** ** [bytes.decode()]: strict UTF-8 *)

Module Utf8.

Definition between (lo hi : N) (c : ascii) : bool :=
  ((lo <=? N_of_ascii c) && (N_of_ascii c <=? hi))%N.

Definition cont (c : ascii) : bool := between 128 191 c.

(** Well-formed three-byte sequences: no overlong form, no surrogate. *)
Definition three (a b c : ascii) : bool :=
  ((between 224 224 a && between 160 191 b)
   || (between 225 236 a && cont b)
   || (between 237 237 a && between 128 159 b)
   || (between 238 239 a && cont b)) && cont c.

(** Well-formed four-byte sequences: U+10000 to U+10FFFF. *)
Definition four (a b c d : ascii) : bool :=
  ((between 240 240 a && between 144 191 b)
   || (between 241 243 a && cont b)
   || (between 244 244 a && between 128 143 b)) && cont c && cont d.

Fixpoint valid (s : string) : bool :=
  match s with
  | EmptyString => true
  | String a s1 =>
      if between 0 127 a then valid s1
      else match s1 with
           | EmptyString => false
           | String b s2 =>
               if between 194 223 a then cont b && valid s2
               else match s2 with
                    | EmptyString => false
                    | String c s3 =>
                        if three a b c then valid s3
                        else match s3 with
                             | EmptyString => false
                             | String d s4 => four a b c d && valid s4
                             end
                    end
           end
  end.

End Utf8.

(** ** Exceptions and results *)

(** The subclasses of [Exception] that can arise in the handler.
    [OtherError] stands for the exceptions of the HTTP and Telegram clients
    (network errors, rejected requests, invalid credentials). *)
Inductive exn : Type :=
| UnicodeDecodeError
| JSONDecodeError
| AttributeError
| TypeError
| ValueError
| KeyError
| OverflowError
| UnboundLocalError (var : string)
| OtherError (name : string).

Inductive result (A : Type) : Type :=
| Ok (a : A)
| Raise (e : exn).
Arguments Ok {A} a.
Arguments Raise {A} e.

Definition is_json_decode_error (e : exn) : bool :=
  match e with JSONDecodeError => true | _ => false end.

(** [except Exception]: every exception of the model. *)
Definition any_exception (_ : exn) : bool := true.

(** ** Values decoded by [json.loads] *)

#[local] Set Warnings "-register-all".

Inductive pyval : Type :=
| PNone
| PBool (b : bool)
| PInt (n : Z)
| PFloat (x : spec_float)
| PStr (s : string)
| PList (l : list pyval)
| PDict (d : list (string * pyval)).

(** A dict is kept as its items in insertion order, keys distinct. *)
Fixpoint lookup (key : string) (d : list (string * pyval)) : option pyval :=
  match d with
  | [] => None
  | (k, v) :: d' => if String.eqb k key then Some v else lookup key d'
  end.

(** [v == s] for a string constant [s]. *)
Definition py_eq_str (v : pyval) (s : string) : bool :=
  match v with
  | PStr t => String.eqb t s
  | _ => false
  end.

(** [obj.get(key, default)]: only a dict has the method. *)
Definition py_get (obj : pyval) (key : string) (default : pyval) : result pyval :=
  match obj with
  | PDict d => Ok (match lookup key d with Some v => v | None => default end)
  | _ => Raise AttributeError
  end.

(** [obj[key]] for a string key. *)
Definition py_getitem (obj : pyval) (key : string) : result pyval :=
  match obj with
  | PDict d => match lookup key d with Some v => Ok v | None => Raise KeyError end
  | _ => Raise TypeError
  end.

(** [obj.items()]. *)
Definition py_items (obj : pyval) : result (list (string * pyval)) :=
  match obj with
  | PDict d => Ok d
  | _ => Raise AttributeError
  end.

(** [sub in obj] for a string [sub]: substring of a string, element of a
    list, key of a dict; the other values are not iterable. *)
Definition py_in (sub : string) (obj : pyval) : result bool :=
  match obj with
  | PStr s => Ok (PyStr.contains sub s)
  | PList l => Ok (existsb (fun v => py_eq_str v sub) l)
  | PDict d => Ok (match lookup sub d with Some _ => true | None => false end)
  | _ => Raise TypeError
  end.

(** [obj.split(":")[-1]]: only a string has the method. *)
Definition py_split_last (obj : pyval) : result pyval :=
  match obj with
  | PStr s => Ok (PStr (PyStr.last_item (PyStr.split ":" s)))
  | _ => Raise AttributeError
  end.

(** Truth value of an object, as [if obj:] tests it. *)
Definition py_truthy (v : pyval) : bool :=
  match v with
  | PNone => false
  | PBool b => b
  | PInt n => negb (n =? 0)
  | PFloat (S754_zero _) => false
  | PFloat _ => true
  | PStr s => negb (String.eqb s EmptyString)
  | PList l => match l with [] => false | _ => true end
  | PDict d => match d with [] => false | _ => true end
  end.

(** ** Binary64 arithmetic and the [.6f] format *)

Module Float64.

Definition prec : Z := 53.
Definition emax : Z := 1024.

Definition of_Z (n : Z) : spec_float := binary_normalize prec emax n 0 false.

Definition div (x y : spec_float) : spec_float := SFdiv prec emax x y.

Definition is_finite (x : spec_float) : bool :=
  match x with
  | S754_zero _ | S754_finite _ _ _ => true
  | _ => false
  end.

(** [float(n)] for an integer: correctly rounded, [OverflowError] beyond
    the largest finite float. *)
Definition of_int (n : Z) : result spec_float :=
  let x := of_Z n in
  if is_finite x then Ok x else Raise OverflowError.

(** Nearest integer to [num / den], ties to even ([den] positive). *)
Definition round_half_even (num den : Z) : Z :=
  let q := num / den in
  let r := num mod den in
  match 2 * r ?= den with
  | Lt => q
  | Gt => q + 1
  | Eq => if Z.even q then q else q + 1
  end.

(** Nearest integer to [m * 2^e * 10^6], ties to even. *)
Definition micro_units (m : positive) (e : Z) : Z :=
  match e with
  | Zneg p => round_half_even (Zpos m * 1000000) (2 ^ Zpos p)
  | _ => Zpos m * 2 ^ e * 1000000
  end.

Definition int_digits (q : Z) : string := PyStr.of_Z (q / 1000000).
Definition frac_digits (q : Z) : string := PyStr.digits 6 (q mod 1000000).

Definition sign (s : bool) : string := if s then "-" else EmptyString.

(** [format(x, ".6f")]: the exact value of [x] rounded to six decimals,
    ties to even; the sign is kept on zeros; no digits for inf and nan. *)
Definition format_6f (x : spec_float) : string :=
  match x with
  | S754_nan => "nan"
  | S754_infinity s => sign s ++ "inf"
  | S754_zero s => sign s ++ "0.000000"
  | S754_finite s m e =>
      sign s ++ int_digits (micro_units m e) ++ "." ++ frac_digits (micro_units m e)
  end.

End Float64.

(** ** The Python runtime, the configuration module and the outside world *)

(** Built-ins whose results the handler only passes along.  [json_loads] is
    [json.loads] on text ([JSONDecodeError] on text that is not JSON);
    [repr_other] is [str()] of a float, a list or a dict; [float_of_str] is
    [float()] of a string, [None] standing for its [ValueError]. *)
Record PyRuntime : Type := {
  json_loads : string -> result pyval;
  repr_other : pyval -> string;
  float_of_str : string -> option spec_float
}.

(** The names the handler reads from [config]. *)
Record Config : Type := {
  MQTT_DEBUG : string;
  TELEGRAM_DEBUG : string;
  TELEGRAM_TOKEN : string;
  CHAT_ID : string
}.

(** What [Bot.send_message] returns. *)
Record TgMessage : Type := {
  message_id : Z;
  tg_repr : string
}.

(** The two network services.  [http_get_json url] is the outcome of opening
    a session, requesting [url] and decoding the body; [bot_create token] is
    the outcome of lines 76-81, which build the event loop, the request
    object and the [Bot] and touch no network; [bot_send_message token
    chat_id text] is the outcome of awaiting [send_message] on a [Bot] that
    was built. *)
Record World : Type := {
  http_get_json : string -> result pyval;
  bot_create : string -> result unit;
  bot_send_message : string -> string -> string -> result TgMessage
}.

(** The message object the broker client passes to the callback. *)
Record MQTTMessage : Type := {
  topic : string;
  payload : string
}.

(** ** Observable effects *)

Inductive level : Type := DEBUG | INFO | ERROR.

(** Calls to the logger and the steps of a delivery, in program order.
    [LogExc] is a record whose text ends with the rendering of an exception;
    [LogTraceback] is [logger.exception].  [Send] is the hand-over of a text
    for delivery: by the callback to the sender (line 178), by the startup
    check to the client (line 199).  [Call] is the sender awaiting
    [bot.send_message] (line 86), which it reaches only when lines 76-81
    have built the [Bot]. *)
Inductive event : Type :=
| Log (lvl : level) (msg : string)
| LogExc (lvl : level) (msg : string) (e : exn)
| LogTraceback (msg : string) (e : exn)
| Send (chat_id text : string)
| Call (chat_id text : string).

Definition trace : Type := list event.

(** A computation: the effects it performed, and its value or the exception
    that ended it. *)
Definition M (A : Type) : Type := (trace * result A)%type.

Definition ret {A} (a : A) : M A := ([], Ok a).

Definition bind {A B} (m : M A) (k : A -> M B) : M B :=
  match m with
  | (t, Ok a) => let (t', r) := k a in ((t ++ t')%list, r)
  | (t, Raise e) => (t, Raise e)
  end.

Definition raise {A} (e : exn) : M A := ([], Raise e).

Definition lift {A} (r : result A) : M A := ([], r).

Definition emit (ev : event) : M unit := ([ev], Ok tt).

(** [try: m except <caught> as e: handler e]. *)
Definition try_except {A} (m : M A) (caught : exn -> bool) (handler : exn -> M A) : M A :=
  match m with
  | (t, Raise e) =>
      if caught e then let (t', r) := handler e in ((t ++ t')%list, r) else (t, Raise e)
  | (t, Ok a) => (t, Ok a)
  end.

Declare Scope py_scope.
Delimit Scope py_scope with py.
Notation "x <- m ;; k" := (bind m (fun x => k))
  (at level 61, m at next level, right associativity) : py_scope.
Notation "m ;; k" := (bind m (fun _ => k))
  (at level 61, right associativity) : py_scope.
Open Scope py_scope.

Definition effects {A} (m : M A) : trace := fst m.
Definition outcome {A} (m : M A) : result A := snd m.

(** The texts handed over for delivery, in order. *)
Fixpoint sent_texts (t : trace) : list string :=
  match t with
  | [] => []
  | Send _ text :: t' => text :: sent_texts t'
  | _ :: t' => sent_texts t'
  end.

(** The texts with which [bot.send_message] was awaited by the sender, in
    order. *)
Fixpoint client_calls (t : trace) : list string :=
  match t with
  | [] => []
  | Call _ text :: t' => text :: client_calls t'
  | _ :: t' => client_calls t'
  end.

(** ** The handler *)

Section Handler.

Variable rt : PyRuntime.
Variable cfg : Config.
Variable w : World.

(** [str(v)], as an f-string field renders a value. *)
Definition py_str (v : pyval) : string :=
  match v with
  | PNone => "None"
  | PBool true => "True"
  | PBool false => "False"
  | PInt n => PyStr.of_Z n
  | PStr s => s
  | _ => repr_other rt v
  end.

(** [float(v)]. *)
Definition py_float (v : pyval) : result spec_float :=
  match v with
  | PBool b => Ok (Float64.of_Z (if b then 1 else 0))
  | PInt n => Float64.of_int n
  | PFloat x => Ok x
  | PStr s => match float_of_str rt s with Some x => Ok x | None => Raise ValueError end
  | _ => Raise TypeError
  end.

(** [message.payload.decode()]. *)
Definition payload_decode (b : string) : result string :=
  if Utf8.valid b then Ok b else Raise UnicodeDecodeError.

(** Lines 51-63. *)
Definition get_ip_info (ip : pyval) : M pyval :=
  try_except
    (let url := "http://ip-api.com/json/" ++ py_str ip ++ "?fields=status,country,city,isp" in
     data <- lift (http_get_json w url) ;;
     status <- lift (py_getitem data "status") ;;
     if py_eq_str status "success" then ret data else ret PNone)
    any_exception
    (fun e => emit (LogExc ERROR "Error getting IP info: " e) ;; ret PNone).

(** Lines 66-95. *)
Definition send_telegram_message (message : string) : M unit :=
  try_except
    ((if String.eqb (TELEGRAM_DEBUG cfg) "YES" then
        emit (Log DEBUG "Preparing to send message to Telegram:") ;;
        emit (Log DEBUG ("Chat ID: " ++ CHAT_ID cfg)) ;;
        emit (Log DEBUG ("Message content: " ++ message))
      else ret tt) ;;
     lift (bot_create w (TELEGRAM_TOKEN cfg)) ;;
     let formatted_message := message in
     emit (Call (CHAT_ID cfg) formatted_message) ;;
     response <- lift (bot_send_message w (TELEGRAM_TOKEN cfg) (CHAT_ID cfg) formatted_message) ;;
     emit (Log INFO ("Message sent successfully to Telegram. Message ID: "
                     ++ PyStr.of_Z (message_id response))) ;;
     emit (Log DEBUG ("Full Telegram response: " ++ tg_repr response)))
    any_exception
    (fun e =>
       emit (LogExc ERROR "Failed to send message to Telegram: " e) ;;
       emit (Log ERROR ("Token: " ++ PyStr.take 10 (TELEGRAM_TOKEN cfg)
                        ++ "... Chat ID: " ++ CHAT_ID cfg)) ;;
       emit (LogTraceback "Full Telegram error details:" e)).

(** The loop of lines 151-152: one [key: value] part per item. *)
Definition plain_part (kv : string * pyval) : string :=
  fst kv ++ ": " ++ py_str (snd kv).

(** The loop body of lines 161-165. *)
Definition rx_part (kv : string * pyval) : result string :=
  if String.eqb (fst kv) "freq" then
    match py_float (snd kv) with
    | Ok x =>
        let value := Float64.div x (Float64.of_Z 1000000) in
        Ok (fst kv ++ ": " ++ Float64.format_6f value ++ " MHz")
    | Raise e => Raise e
    end
  else Ok (plain_part kv).

(** The loop of lines 160-165: the parts appended so far are lost when an
    item raises. *)
Fixpoint rx_parts (items : list (string * pyval)) : result (list string) :=
  match items with
  | [] => Ok []
  | kv :: items' =>
      match rx_part kv with
      | Ok p =>
          match rx_parts items' with
          | Ok ps => Ok (p :: ps)
          | Raise e => Raise e
          end
      | Raise e => Raise e
      end
  end.

Definition raw_text (tp decoded_payload : string) : string :=
  "Topic: " ++ tp ++ PyStr.nl ++ "Message: " ++ decoded_payload.

Definition connected_basic (ip : pyval) : string :=
  "👤 Cliente Conectado" ++ PyStr.nl ++ "🌐 IP: " ++ py_str ip.

Definition connected_info (ip country city isp : pyval) : string :=
  "👤 Cliente Conectado" ++ PyStr.nl
  ++ "🌐 IP: " ++ py_str ip ++ PyStr.nl
  ++ "🏳️ País: " ++ py_str country ++ PyStr.nl
  ++ "🏢 Ciudad: " ++ py_str city ++ PyStr.nl
  ++ "📡 ISP: " ++ py_str isp.

Definition connected_no_info (ip : pyval) : string :=
  "👤 Cliente Conectado" ++ PyStr.nl
  ++ "🌐 IP: " ++ py_str ip ++ PyStr.nl
  ++ "No se pudo obtener información adicional de la IP".

Definition disconnected_text (ip : pyval) : string :=
  "👤 Cliente Desconectado" ++ PyStr.nl ++ "🌐 IP: " ++ py_str ip.

(** Line 114: the IP with the IPv4-mapped prefix removed. *)
Definition normalize_ip (raw_ip : pyval) : result pyval :=
  match py_in "::ffff:" raw_ip with
  | Ok true => py_split_last raw_ip
  | Ok false => Ok raw_ip
  | Raise e => Raise e
  end.

(** Lines 121-138: the nested coroutine, which rebinds [message_text]. *)
Definition process_ip_info (ip : pyval) : M string :=
  ip_info <- get_ip_info ip ;;
  if py_truthy ip_info then
    country <- lift (py_get ip_info "country" (PStr "N/A")) ;;
    city <- lift (py_get ip_info "city" (PStr "N/A")) ;;
    isp <- lift (py_get ip_info "isp" (PStr "N/A")) ;;
    ret (connected_info ip country city isp)
  else ret (connected_no_info ip).

(** Lines 106-172: the inner [try].  The value is the binding of
    [message_text] when control leaves the statement: [None] when no
    assignment was executed. *)
Definition format_payload (tp decoded_payload : string) : M (option string) :=
  try_except
    (payload <- lift (json_loads rt decoded_payload) ;;
     if String.eqb tp "OpenwebRX/CLIENT" then
       mode <- lift (py_get payload "mode" PNone) ;;
       if py_eq_str mode "CLIENT" then
         raw_ip <- lift (py_get payload "ip" (PStr EmptyString)) ;;
         ip <- lift (normalize_ip raw_ip) ;;
         state <- lift (py_get payload "state" PNone) ;;
         if py_eq_str state "Connected" then
           let message_text := connected_basic ip in
           emit (Log INFO ("Client connected from IP: " ++ py_str ip)) ;;
           message_text <- process_ip_info ip ;;
           ret (Some message_text)
         else
           state' <- lift (py_get payload "state" PNone) ;;
           if py_eq_str state' "Disconnected" then
             emit (Log INFO ("Client disconnected from IP: " ++ py_str ip)) ;;
             ret (Some (disconnected_text ip))
           else ret None
       else
         message_text <-
           (if String.eqb tp "OpenwebRX/RX" then
              items <- lift (py_items payload) ;;
              ret (PyStr.join PyStr.nl (map plain_part items))
            else ret (raw_text tp decoded_payload)) ;;
         emit (Log INFO ("Other message received: " ++ message_text)) ;;
         ret (Some message_text)
     else
       message_text <-
         (if String.eqb tp "OpenwebRX/RX" then
            items <- lift (py_items payload) ;;
            parts <- lift (rx_parts items) ;;
            ret (PyStr.join PyStr.nl parts)
          else ret (raw_text tp decoded_payload)) ;;
       emit (Log INFO ("Message received on topic " ++ tp)) ;;
       ret (Some message_text))
    is_json_decode_error
    (fun _ =>
       emit (Log ERROR "Failed to parse JSON payload") ;;
       ret (Some (raw_text tp decoded_payload))).

(** Lines 97-183. *)
Definition on_message (message : MQTTMessage) : M unit :=
  try_except
    (decoded_payload <- lift (payload_decode (payload message)) ;;
     (if String.eqb (MQTT_DEBUG cfg) "YES" then
        emit (Log DEBUG ("Topic: " ++ topic message)) ;;
        emit (Log DEBUG ("Payload (decoded): " ++ decoded_payload))
      else ret tt) ;;
     message_text <- format_payload (topic message) decoded_payload ;;
     match message_text with
     | Some text =>
         emit (Send (CHAT_ID cfg) text) ;;
         send_telegram_message text
     | None => raise (UnboundLocalError "message_text")
     end)
    any_exception
    (fun e =>
       emit (LogExc ERROR "Error processing message: " e) ;;
       emit (LogTraceback "Full exception details:" e)).

End Handler.

(** ** The vocabulary of the specification *)

Module Spec.

Definition client_topic : string := "OpenwebRX/CLIENT".
Definition telemetry_topic : string := "OpenwebRX/RX".

(** The substring after the last occurrence of [c]; the whole string when
    [c] does not occur. *)
Fixpoint after_last (c : ascii) (s : string) : string :=
  match s with
  | EmptyString => EmptyString
  | String d s' =>
      if PyStr.free_of c s' then (if Ascii.eqb d c then s' else String d s')
      else after_last c s'
  end.

(** The IP normalization rule, in the words of the specification. *)
Definition normalized_ip (raw : string) : string :=
  if PyStr.contains "::ffff:" raw then after_last ":" raw else raw.

(** The payload's IP is the text [s]: the [ip] entry when it is a string,
    the empty string when there is no entry. *)
Definition ip_field (d : list (string * pyval)) (s : string) : Prop :=
  match lookup "ip" d with
  | Some (PStr t) => t = s
  | Some _ => False
  | None => s = EmptyString
  end.

Definition field_is (d : list (string * pyval)) (key value : string) : Prop :=
  lookup key d = Some (PStr value).

(** The entry is missing or is not the string [value]. *)
Definition field_is_not (d : list (string * pyval)) (key value : string) : Prop :=
  match lookup key d with
  | Some v => py_eq_str v value = false
  | None => True
  end.

(** A rendering with exactly six decimal places. *)
Definition six_decimals (s : string) : Prop :=
  exists whole frac,
    s = whole ++ "." ++ frac
    /\ String.length frac = 6%nat
    /\ PyStr.all_digits frac = true.

Definition mhz (x : spec_float) : spec_float :=
  Float64.div x (Float64.of_Z 1000000).

(** [float(v)] succeeds. *)
Definition converts (rt : PyRuntime) (v : pyval) : bool :=
  match py_float rt v with Ok _ => true | Raise _ => false end.

(** Every value stored under the frequency key converts to a float. *)
Definition freq_converts (rt : PyRuntime) (d : list (string * pyval)) : bool :=
  forallb (fun kv => if String.eqb (fst kv) "freq" then converts rt (snd kv) else true) d.

(** The line of the telemetry format for one item of the payload. *)
Definition telemetry_line (rt : PyRuntime) (kv : string * pyval) (line : string) : Prop :=
  if String.eqb (fst kv) "freq" then
    exists x,
      py_float rt (snd kv) = Ok x
      /\ line = "freq: " ++ Float64.format_6f (mhz x) ++ " MHz"
      /\ (Float64.is_finite (mhz x) = true -> six_decimals (Float64.format_6f (mhz x)))
  else line = fst kv ++ ": " ++ py_str rt (snd kv).

(** The lookup gave no information: the request or the decoding of its body
    raised, or the body has no [status] entry equal to ["success"]. *)
Definition lookup_failed (w : World) (url : string) : Prop :=
  match http_get_json w url with
  | Raise _ => True
  | Ok data =>
      match py_getitem data "status" with
      | Ok status => py_eq_str status "success" = false
      | Raise _ => True
      end
  end.

Definition lookup_url (ip : string) : string :=
  "http://ip-api.com/json/" ++ ip ++ "?fields=status,country,city,isp".

(** A computation that hands nothing to the Telegram client. *)
Definition silent {A} (m : M A) : Prop := sent_texts (effects m) = [].

(** The text the handler has to deliver for a message: the binding of
    [message_text] after the inner [try], when the payload decodes and the
    statement ends normally with the variable bound. *)
Definition outbound_text (rt : PyRuntime) (w : World) (m : MQTTMessage) : option string :=
  match payload_decode (payload m) with
  | Ok decoded_payload =>
      match outcome (format_payload rt w (topic m) decoded_payload) with
      | Ok (Some text) => Some text
      | _ => None
      end
  | Raise _ => None
  end.

(** The debug records at the head of [on_message]. *)
Definition mqtt_debug_records (cfg : Config) (tp decoded_payload : string) : trace :=
  if String.eqb (MQTT_DEBUG cfg) "YES" then
    [Log DEBUG ("Topic: " ++ tp); Log DEBUG ("Payload (decoded): " ++ decoded_payload)]
  else [].

(** The debug records at the head of [send_telegram_message]. *)
Definition telegram_debug_records (cfg : Config) (text : string) : trace :=
  if String.eqb (TELEGRAM_DEBUG cfg) "YES" then
    [Log DEBUG "Preparing to send message to Telegram:";
     Log DEBUG ("Chat ID: " ++ CHAT_ID cfg);
     Log DEBUG ("Message content: " ++ text)]
  else [].

(** The three records the sender writes for a failed delivery. *)
Definition delivery_failure_records (cfg : Config) (e : exn) : trace :=
  [LogExc ERROR "Failed to send message to Telegram: " e;
   Log ERROR ("Token: " ++ PyStr.take 10 (TELEGRAM_TOKEN cfg) ++ "... Chat ID: " ++ CHAT_ID cfg);
   LogTraceback "Full Telegram error details:" e].

(** The two records the handler boundary writes for an exception. *)
Definition boundary_records (e : exn) : trace :=
  [LogExc ERROR "Error processing message: " e;
   LogTraceback "Full exception details:" e].

End Spec.

(** ** Concrete runtimes, configurations and worlds *)

Module Scenario.

Definition dq : string := String (ascii_of_nat 34) EmptyString.
Definition quoted (s : string) : string := dq ++ s ++ dq.

(** The text of a JSON object whose values are already rendered. *)
Definition json_object (fields : list (string * string)) : string :=
  "{" ++ PyStr.join ", " (map (fun kv => quoted (fst kv) ++ ": " ++ snd kv) fields) ++ "}".

(** A runtime in which [json.loads] decodes the listed documents and
    rejects any other text.  The scenarios render no float, list or dict and
    convert no string to a float, so the other two fields are never reached. *)
Definition decoding (docs : list (string * pyval)) : PyRuntime :=
  {| json_loads := fun s =>
       match find (fun kv => String.eqb (fst kv) s) docs with
       | Some kv => Ok (snd kv)
       | None => Raise JSONDecodeError
       end;
     repr_other := fun _ => EmptyString;
     float_of_str := fun _ => None |}.

Definition quiet : Config :=
  {| MQTT_DEBUG := "NO"; TELEGRAM_DEBUG := "NO";
     TELEGRAM_TOKEN := "123456789:AAF-example-token-value"; CHAT_ID := "-100200300" |}.

Definition verbose : Config :=
  {| MQTT_DEBUG := "YES"; TELEGRAM_DEBUG := "YES";
     TELEGRAM_TOKEN := "123456789:AAF-example-token-value"; CHAT_ID := "-100200300" |}.

(** No network: both services raise. *)
Definition offline : World :=
  {| http_get_json := fun _ => Raise (OtherError "ClientConnectorError");
     bot_create := fun _ => Ok tt;
     bot_send_message := fun _ _ _ => Raise (OtherError "NetworkError") |}.

(** The geolocation service answers [geo]; Telegram accepts the message. *)
Definition online (geo : pyval) : World :=
  {| http_get_json := fun _ => Ok geo;
     bot_create := fun _ => Ok tt;
     bot_send_message := fun _ _ _ => Ok {| message_id := 42; tg_repr := "Message(message_id=42)" |} |}.

Definition geo_fail : pyval :=
  PDict [("status", PStr "fail"); ("message", PStr "private range")].

Definition geo_testland : pyval :=
  PDict [("status", PStr "success"); ("country", PStr "Testland");
         ("city", PStr "Test City"); ("isp", PStr "TestISP")].

(** A presence payload whose mode is not the client mode. *)
Definition doc_server_disconnected : string :=
  json_object [("mode", quoted "SERVER"); ("state", quoted "Disconnected");
               ("ip", quoted "::ffff:10.0.0.5")].
Definition val_server_disconnected : pyval :=
  PDict [("mode", PStr "SERVER"); ("state", PStr "Disconnected");
         ("ip", PStr "::ffff:10.0.0.5")].

Definition doc_client (state ip : string) : string :=
  json_object [("mode", quoted "CLIENT"); ("state", quoted state); ("ip", quoted ip)].
Definition val_client (state ip : string) : pyval :=
  PDict [("mode", PStr "CLIENT"); ("state", PStr state); ("ip", PStr ip)].

Definition doc_freq_null : string := json_object [("freq", "null")].
Definition val_freq_null : pyval := PDict [("freq", PNone)].

Definition doc_freq_huge : string := json_object [("freq", "1e999")].
Definition val_freq_huge : pyval := PDict [("freq", PFloat (S754_infinity false))].

Definition doc_telemetry : string :=
  json_object [("freq", "433920000"); ("mode", quoted "FM")].
Definition val_telemetry : pyval :=
  PDict [("freq", PInt 433920000); ("mode", PStr "FM")].

Definition doc_freq_145 : string := json_object [("freq", "145000000")].
Definition val_freq_145 : pyval := PDict [("freq", PInt 145000000)].

Definition documents : list (string * pyval) :=
  [(doc_server_disconnected, val_server_disconnected);
   (doc_client "Connected" "::ffff:10.0.0.5", val_client "Connected" "::ffff:10.0.0.5");
   (doc_client "Disconnected" "::ffff:10.0.0.5", val_client "Disconnected" "::ffff:10.0.0.5");
   (doc_client "Idle" "192.0.2.1", val_client "Idle" "192.0.2.1");
   (doc_freq_null, val_freq_null);
   (doc_freq_huge, val_freq_huge);
   (doc_telemetry, val_telemetry);
   (doc_freq_145, val_freq_145)].

Definition python : PyRuntime := decoding documents.

End Scenario.

(** ** The broker callbacks, the startup check and the service loop *)

Module Broker.

(** The reason code the broker client passes to a callback: the number it
    compares equal to, and its rendering in an f-string. *)
Record ReasonCode : Type := {
  code : Z;
  code_text : string
}.

Inductive severity : Type := Info | Warning | Error | Critical.

Inductive attempt : Type :=
| Returns
| Raises (e : exn)
| Interrupt.

(** How the process ends: the loop is left by [break]; the outer handler
    logs a fatal error; a [KeyboardInterrupt] leaves the program uncaught. *)
Inductive status : Type :=
| Stopped
| Fatal (e : exn)
| Killed.

(** Calls to the logger, the broker client and [time.sleep], in program
    order; [Startup] carries the effects of the startup check. *)
Inductive action : Type :=
| Logged (s : severity) (msg : string)
| LoggedExc (s : severity) (msg : string) (e : exn)
| Subscribe (topic : string) (qos : Z)
| Reconnect
| Sleep (seconds : Z)
| Connect (host : string) (port keepalive : Z)
| LoopForever
| Disconnect
| Startup (ev : event).

(** The client inside [on_disconnect]: the result of the [n]-th call of
    [is_connected()] and the outcome of the [n]-th call of [reconnect()]. *)
Record Client : Type := {
  is_connected : nat -> bool;
  reconnect : nat -> result unit
}.

(** The Telegram client at startup: building the [Bot], the user name that
    [get_me] returns, and [isinstance(e, TelegramError)]. *)
Record Telegram : Type := {
  new_bot : string -> result unit;
  get_me : string -> result string;
  is_telegram_error : exn -> bool
}.

(** The broker client in the main block: building and configuring it, the
    [n]-th [connect] and the [loop_forever] that follows it, whether the
    pause after the [n]-th failure is interrupted, and [disconnect]. *)
Record Service : Type := {
  new_client : result unit;
  connect : nat -> attempt;
  loop_forever : nat -> attempt;
  sleep_interrupted : nat -> bool;
  disconnect : result unit
}.

(** The topics handed to [subscribe], with their quality of service. *)
Fixpoint subscribed (t : list action) : list (string * Z) :=
  match t with
  | [] => []
  | Subscribe tp qos :: t' => (tp, qos) :: subscribed t'
  | _ :: t' => subscribed t'
  end.

Fixpoint reconnects (t : list action) : nat :=
  match t with
  | [] => O
  | Reconnect :: t' => S (reconnects t')
  | _ :: t' => reconnects t'
  end.

Fixpoint connects (t : list action) : nat :=
  match t with
  | [] => O
  | Connect _ _ _ :: t' => S (connects t')
  | _ :: t' => connects t'
  end.

Fixpoint disconnects (t : list action) : nat :=
  match t with
  | [] => O
  | Disconnect :: t' => S (disconnects t')
  | _ :: t' => disconnects t'
  end.

(** Seconds spent in [time.sleep]. *)
Fixpoint slept (t : list action) : Z :=
  match t with
  | [] => 0
  | Sleep n :: t' => n + slept t'
  | _ :: t' => slept t'
  end.

(** The first [k] reconnections that raised. *)
Fixpoint failures (c : Client) (k : nat) : nat :=
  match k with
  | O => O
  | S k' =>
      (failures c k' + match reconnect c k' with Raise _ => 1 | Ok _ => 0 end)%nat
  end.

(** The first [k] rounds of the service loop that ended with an exception. *)
Fixpoint crashes (s : Service) (k : nat) : nat :=
  match k with
  | O => O
  | S k' =>
      (crashes s k'
       + match connect s k' with
         | Raises _ => 1
         | Returns => match loop_forever s k' with Raises _ => 1 | _ => 0 end
         | Interrupt => 0
         end)%nat
  end.

(** Round [n] of the service loop is interrupted inside the inner [try]. *)
Definition interrupted (s : Service) (n : nat) : bool :=
  match connect s n with
  | Interrupt => true
  | Returns => match loop_forever s n with Interrupt => true | _ => false end
  | Raises _ => false
  end.

(** Round [n] ends with an exception and its pause is interrupted. *)
Definition pause_interrupted (s : Service) (n : nat) : bool :=
  match connect s n with
  | Raises _ => sleep_interrupted s n
  | Returns => match loop_forever s n with Raises _ => sleep_interrupted s n | _ => false end
  | Interrupt => false
  end.

Section Callbacks.

Variable MQTT_TOPICS : list string.
Variable MQTT_BROKER : string.
Variable MQTT_PORT : Z.

(** [client.subscribe(topic, qos=1)]. *)
Variable subscribe : string -> result unit.

(** The loop of lines 32-34. *)
Fixpoint subscribe_each (topics : list string) : list action * result unit :=
  match topics with
  | [] => ([], Ok tt)
  | tp :: topics' =>
      match subscribe tp with
      | Ok _ =>
          let (t, r) := subscribe_each topics' in
          (Subscribe tp 1 :: Logged Info ("Subscribed to topic: " ++ tp) :: t, r)
      | Raise e => ([Subscribe tp 1], Raise e)
      end
  end.

(** Lines 27-36. *)
Definition on_connect (reason_code : ReasonCode) : list action * result unit :=
  if code reason_code =? 0 then
    let (t, r) := subscribe_each MQTT_TOPICS in
    (Logged Info "Connected to MQTT broker successfully" :: t, r)
  else
    ([Logged Error ("Failed to connect to MQTT broker with reason code: "
                    ++ code_text reason_code)],
     Ok tt).

(** The loop of lines 42-49, from its [i]-th test on: [None] when the test
    is still false after [fuel] iterations. *)
Fixpoint reconnect_loop (c : Client) (fuel i : nat) : option (list action) :=
  match fuel with
  | O => None
  | S fuel' =>
      if is_connected c i then Some []
      else
        let body :=
          match reconnect c i with
          | Ok _ => [Logged Info "Attempting to reconnect..."; Reconnect; Sleep 2]
          | Raise e =>
              [Logged Info "Attempting to reconnect..."; Reconnect;
               LoggedExc Error "Reconnection failed: " e; Sleep 5]
          end in
        match reconnect_loop c fuel' (S i) with
        | Some t => Some (body ++ t)%list
        | None => None
        end
  end.

(** Lines 38-49. *)
Definition on_disconnect (c : Client) (fuel : nat) (reason_code : ReasonCode)
  : option (list action) :=
  let warning :=
    Logged Warning ("Disconnected from MQTT broker with reason code: "
                    ++ code_text reason_code) in
  if negb (code reason_code =? 0) then
    match reconnect_loop c fuel 0 with
    | Some t => Some (warning :: t)
    | None => None
    end
  else Some [warning].

(** Lines 185-203. *)
Definition verify_bot_connection (cfg : Config) (w : World) (tg : Telegram) : M unit :=
  try_except
    (lift (new_bot tg (TELEGRAM_TOKEN cfg)) ;;
     emit (Log INFO ("Telegram bot initialized with token: "
                     ++ PyStr.take 10 (TELEGRAM_TOKEN cfg) ++ "...")) ;;
     username <- lift (get_me tg (TELEGRAM_TOKEN cfg)) ;;
     emit (Log INFO ("Bot connection verified. Bot username: @" ++ username)) ;;
     emit (Send (CHAT_ID cfg) "MQTT Bridge Service Started") ;;
     lift (bot_send_message w (TELEGRAM_TOKEN cfg) (CHAT_ID cfg)
             "MQTT Bridge Service Started") ;;
     emit (Log INFO "Sent startup message to Telegram"))
    (is_telegram_error tg)
    (fun e => emit (LogExc ERROR "Failed to send startup message: " e) ;; raise e).

(** The [KeyboardInterrupt] handler of lines 228-231; an exception of
    [disconnect] reaches the outer handler. *)
Definition stop (s : Service) (pre : list action) : list action * status :=
  match disconnect s with
  | Ok _ => ((pre ++ [Logged Info "Service stopped by user"; Disconnect])%list, Stopped)
  | Raise e =>
      ((pre ++ [Logged Info "Service stopped by user"; Disconnect;
                LoggedExc Critical "Fatal error: " e])%list,
       Fatal e)
  end.

(** The loop of lines 222-234, from round [n] on: [None] when the loop is
    still running after [fuel] rounds. *)
Fixpoint serve (s : Service) (fuel n : nat) : option (list action * status) :=
  match fuel with
  | O => None
  | S fuel' =>
      let again (pre : list action) :=
        match serve s fuel' (S n) with
        | Some (t, st) => Some ((pre ++ t)%list, st)
        | None => None
        end in
      let failed (pre : list action) (e : exn) :=
        let pre' := (pre ++ [LoggedExc Error "Connection error: " e; Sleep 5])%list in
        if sleep_interrupted s n then Some (pre', Killed) else again pre' in
      match connect s n with
      | Interrupt => Some (stop s [Connect MQTT_BROKER MQTT_PORT 60])
      | Raises e => failed [Connect MQTT_BROKER MQTT_PORT 60] e
      | Returns =>
          match loop_forever s n with
          | Interrupt => Some (stop s [Connect MQTT_BROKER MQTT_PORT 60; LoopForever])
          | Raises e => failed [Connect MQTT_BROKER MQTT_PORT 60; LoopForever] e
          | Returns => again [Connect MQTT_BROKER MQTT_PORT 60; LoopForever]
          end
      end
  end.

(** Lines 205-237. *)
Definition main (cfg : Config) (w : World) (tg : Telegram) (s : Service) (fuel : nat)
  : option (list action * status) :=
  match verify_bot_connection cfg w tg with
  | (t, Raise e) =>
      Some ((map Startup t ++ [LoggedExc Critical "Fatal error: " e])%list, Fatal e)
  | (t, Ok _) =>
      match new_client s with
      | Raise e =>
          Some ((map Startup t ++ [LoggedExc Critical "Fatal error: " e])%list, Fatal e)
      | Ok _ =>
          match serve s fuel 0 with
          | Some (t', st) => Some ((map Startup t ++ t')%list, st)
          | None => None
          end
      end
  end.

End Callbacks.

End Broker.

(** ** Vocabulary for the edge cases of the handler *)

Module Edge.

(** The values on which the test [sub in v] raises. *)
Definition not_iterable (v : pyval) : bool :=
  match v with
  | PNone | PBool _ | PInt _ | PFloat _ => true
  | _ => false
  end.

Definition is_object (v : pyval) : bool :=
  match v with PDict _ => true | _ => false end.

(** One of the two topics the handler treats apart. *)
Definition special_topic (tp : string) : bool :=
  String.eqb tp "OpenwebRX/CLIENT" || String.eqb tp "OpenwebRX/RX".

(** The entry of a lookup answer, or the text the handler puts in its place. *)
Definition or_na (d : list (string * pyval)) (key : string) : pyval :=
  match lookup key d with Some v => v | None => PStr "N/A" end.

(** No item of the payload has the frequency key. *)
Definition no_freq (d : list (string * pyval)) : bool :=
  forallb (fun kv => negb (String.eqb (fst kv) "freq")) d.

(** The message is a client-presence payload in the client mode and the
    Connected state: the one case in which the handler calls the lookup. *)
Definition asks_lookup (rt : PyRuntime) (tp decoded_payload : string) : bool :=
  match json_loads rt decoded_payload with
  | Ok (PDict d) =>
      String.eqb tp "OpenwebRX/CLIENT"
      && match lookup "mode" d with Some v => py_eq_str v "CLIENT" | None => false end
      && match lookup "state" d with Some v => py_eq_str v "Connected" | None => false end
  | _ => false
  end.

Definition is_debug (ev : event) : bool :=
  match ev with
  | Log DEBUG _ | LogExc DEBUG _ _ => true
  | _ => false
  end.

(** The effects that remain when the logger discards DEBUG records. *)
Definition visible (t : trace) : trace := filter (fun ev => negb (is_debug ev)) t.

Definition is_error (ev : event) : bool :=
  match ev with
  | Log ERROR _ | LogExc ERROR _ _ | LogTraceback _ _ => true
  | _ => false
  end.

End Edge.

(** ** Concrete brokers, clients and services *)

Module BrokerScenario.
Import Broker.

Definition success : ReasonCode := {| code := 0; code_text := "Success" |}.

Definition keep_alive_timeout : ReasonCode :=
  {| code := 141; code_text := "Keep alive timeout" |}.

Definition topics : list string := ["OpenwebRX/CLIENT"; "OpenwebRX/RX"; "sensors/#"].

Definition accepts : string -> result unit := fun _ => Ok tt.

(** A client that rejects the second topic. *)
Definition rejects_rx : string -> result unit :=
  fun tp => if String.eqb tp "OpenwebRX/RX" then Raise ValueError else Ok tt.

(** Connected again at the fourth test; the first reconnection raises. *)
Definition flaky : Client :=
  {| is_connected := fun n => Nat.leb 3 n;
     reconnect := fun n =>
       match n with
       | O => Raise (OtherError "ConnectionRefusedError")
       | _ => Ok tt
       end |}.

Definition unreachable : Client :=
  {| is_connected := fun _ => false;
     reconnect := fun _ => Raise (OtherError "ConnectionRefusedError") |}.

(** The exception classes of the Telegram library. *)
Definition telegram_errors : list string :=
  ["TelegramError"; "Forbidden"; "InvalidToken"; "NetworkError"; "BadRequest";
   "TimedOut"; "ChatMigrated"; "RetryAfter"; "Conflict"; "EndPointNotFound";
   "PassportDecryptionError"].

Definition by_name (e : exn) : bool :=
  match e with
  | OtherError name => existsb (String.eqb name) telegram_errors
  | _ => false
  end.

Definition telegram_up : Telegram :=
  {| new_bot := fun _ => Ok tt;
     get_me := fun _ => Ok "bridge_bot";
     is_telegram_error := by_name |}.

(** The server rejects the token at the identity check. *)
Definition telegram_rejects : Telegram :=
  {| new_bot := fun _ => Ok tt;
     get_me := fun _ => Raise (OtherError "InvalidToken");
     is_telegram_error := by_name |}.

(** The identity check fails below the Telegram library. *)
Definition telegram_broken : Telegram :=
  {| new_bot := fun _ => Ok tt;
     get_me := fun _ => Raise (OtherError "RuntimeError");
     is_telegram_error := by_name |}.

(** The broker refuses the first connection, the second one is lost, the
    third one is interrupted by the operator. *)
Definition interrupted_in_third_round : Service :=
  {| new_client := Ok tt;
     connect := fun n =>
       match n with
       | O => Raises (OtherError "ConnectionRefusedError")
       | _ => Returns
       end;
     loop_forever := fun n =>
       match n with
       | 1%nat => Raises (OtherError "ConnectionResetError")
       | _ => Interrupt
       end;
     sleep_interrupted := fun _ => false;
     disconnect := Ok tt |}.

(** The broker is never reachable and nobody interrupts. *)
Definition never_reachable : Service :=
  {| new_client := Ok tt;
     connect := fun _ => Raises (OtherError "ConnectionRefusedError");
     loop_forever := fun _ => Returns;
     sleep_interrupted := fun _ => false;
     disconnect := Ok tt |}.

(** The operator interrupts the pause that follows the second failure. *)
Definition interrupted_in_pause : Service :=
  {| new_client := Ok tt;
     connect := fun _ => Raises (OtherError "ConnectionRefusedError");
     loop_forever := fun _ => Returns;
     sleep_interrupted := fun n => Nat.eqb n 1;
     disconnect := Ok tt |}.

End BrokerScenario.

(** ** More documents *)

Module EdgeScenario.
Import Scenario.

Definition doc_ip_number : string :=
  json_object [("mode", quoted "CLIENT"); ("state", quoted "Connected"); ("ip", "42")].
Definition val_ip_number : pyval :=
  PDict [("mode", PStr "CLIENT"); ("state", PStr "Connected"); ("ip", PInt 42)].

Definition doc_array : string := "[1, 2]".
Definition val_array : pyval := PList [PInt 1; PInt 2].

Definition doc_no_freq : string :=
  json_object [("mode", quoted "FM"); ("squelch", "true"); ("gain", "-12")].
Definition val_no_freq : pyval :=
  PDict [("mode", PStr "FM"); ("squelch", PBool true); ("gain", PInt (-12))].

Definition doc_freq_text : string :=
  json_object [("mode", quoted "FM"); ("freq", quoted "n/a")].
Definition val_freq_text : pyval :=
  PDict [("mode", PStr "FM"); ("freq", PStr "n/a")].

Definition documents : list (string * pyval) :=
  [(doc_ip_number, val_ip_number);
   (doc_array, val_array);
   (doc_no_freq, val_no_freq);
   (doc_freq_text, val_freq_text);
   (doc_client "Connected" "192.0.2.1", val_client "Connected" "192.0.2.1");
   (doc_client "Disconnected" "192.0.2.1", val_client "Disconnected" "192.0.2.1");
   (doc_telemetry, val_telemetry)].

Definition python : PyRuntime := decoding documents.

(** An answer of the lookup service with no city. *)
Definition geo_no_city : pyval :=
  PDict [("status", PStr "success"); ("country", PStr "Testland"); ("isp", PStr "TestISP")].

End EdgeScenario.

(** ** The delivery step of the sender *)

Module Delivery.

(** The delivery of [text] fails with [e]: lines 76-81 raise [e] while they
    build the [Bot], or the [Bot] is built and the awaited call raises [e]. *)
Definition fails (cfg : Config) (w : World) (text : string) (e : exn) : Prop :=
  match bot_create w (TELEGRAM_TOKEN cfg) with
  | Raise e' => e' = e
  | Ok _ => bot_send_message w (TELEGRAM_TOKEN cfg) (CHAT_ID cfg) text = Raise e
  end.

(** The calls of the client in one run of the sender: none when the [Bot]
    cannot be built, one otherwise. *)
Definition attempts (cfg : Config) (w : World) (text : string) : trace :=
  match bot_create w (TELEGRAM_TOKEN cfg) with
  | Raise _ => []
  | Ok _ => [Call (CHAT_ID cfg) text]
  end.

(** A computation that never awaits the client. *)
Definition calls_nothing {A} (m : M A) : Prop := client_calls (effects m) = [].

(** The [Bot] cannot be built: the library refuses the token. *)
Definition no_bot : World :=
  {| http_get_json := fun _ => Raise (OtherError "ClientConnectorError");
     bot_create := fun _ => Raise (OtherError "InvalidToken");
     bot_send_message := fun _ _ _ =>
       Ok {| message_id := 42; tg_repr := "Message(message_id=42)" |} |}.

End Delivery.

(** ** The decision table of the formatter *)

Module Table.

Definition raw_form (tp decoded_payload : string) : string :=
  "Topic: " ++ tp ++ PyStr.nl ++ "Message: " ++ decoded_payload.

(** The entry [key] of the payload is the string [value]. *)
Definition has (d : list (string * pyval)) (key value : string) : bool :=
  match lookup key d with
  | Some v => py_eq_str v value
  | None => false
  end.

(** The IP a client payload shows: its [ip] entry normalized when that is a
    string, the empty string when there is no entry; a list or an object
    that does not hold the mapped prefix as an element or a key is shown as
    it prints; no IP at all for the other values, on which line 114 raises. *)
Definition shown_ip (rt : PyRuntime) (d : list (string * pyval)) : option string :=
  match lookup "ip" d with
  | None => Some EmptyString
  | Some (PStr s) => Some (Spec.normalized_ip s)
  | Some (PList l) =>
      if existsb (fun v => py_eq_str v "::ffff:") l then None
      else Some (repr_other rt (PList l))
  | Some (PDict g) =>
      match lookup "::ffff:" g with
      | Some _ => None
      | None => Some (repr_other rt (PDict g))
      end
  | Some _ => None
  end.

(** What the geolocation service has to say about [ip]: the answer, when
    the request returns an object whose status is the success text. *)
Definition geo_answer (w : World) (ip : string) : option (list (string * pyval)) :=
  match http_get_json w (Spec.lookup_url ip) with
  | Ok (PDict g) => if has g "status" "success" then Some g else None
  | _ => None
  end.

Definition connected (rt : PyRuntime) (w : World) (ip : string) : string :=
  match geo_answer w ip with
  | Some g =>
      "👤 Cliente Conectado" ++ PyStr.nl
      ++ "🌐 IP: " ++ ip ++ PyStr.nl
      ++ "🏳️ País: " ++ py_str rt (Edge.or_na g "country") ++ PyStr.nl
      ++ "🏢 Ciudad: " ++ py_str rt (Edge.or_na g "city") ++ PyStr.nl
      ++ "📡 ISP: " ++ py_str rt (Edge.or_na g "isp")
  | None =>
      "👤 Cliente Conectado" ++ PyStr.nl
      ++ "🌐 IP: " ++ ip ++ PyStr.nl
      ++ "No se pudo obtener información adicional de la IP"
  end.

Definition disconnected (ip : string) : string :=
  "👤 Cliente Desconectado" ++ PyStr.nl ++ "🌐 IP: " ++ ip.

(** One line of the telemetry text. *)
Definition line (rt : PyRuntime) (kv : string * pyval) : string :=
  if String.eqb (fst kv) "freq" then
    match py_float rt (snd kv) with
    | Ok x => "freq: " ++ Float64.format_6f (Spec.mhz x) ++ " MHz"
    | Raise _ => EmptyString
    end
  else fst kv ++ ": " ++ py_str rt (snd kv).

Definition telemetry (rt : PyRuntime) (d : list (string * pyval)) : option string :=
  if Spec.freq_converts rt d then Some (PyStr.join PyStr.nl (map (line rt) d)) else None.

(** The text a message is to be forwarded as, and [None] for the messages
    that are to be dropped: by topic, then by the shape of the payload. *)
Definition expected_text (rt : PyRuntime) (w : World) (tp decoded_payload : string)
  : option string :=
  match json_loads rt decoded_payload with
  | Raise e =>
      if is_json_decode_error e then Some (raw_form tp decoded_payload) else None
  | Ok v =>
      if String.eqb tp Spec.client_topic then
        match v with
        | PDict d =>
            if has d "mode" "CLIENT" then
              match shown_ip rt d with
              | Some ip =>
                  if has d "state" "Connected" then Some (connected rt w ip)
                  else if has d "state" "Disconnected" then Some (disconnected ip)
                  else None
              | None => None
              end
            else Some (raw_form tp decoded_payload)
        | _ => None
        end
      else if String.eqb tp Spec.telemetry_topic then
        match v with
        | PDict d => telemetry rt d
        | _ => None
        end
      else Some (raw_form tp decoded_payload)
  end.

(** The same, for the bytes the broker delivers. *)
Definition expected (rt : PyRuntime) (w : World) (m : MQTTMessage) : option string :=
  match payload_decode (payload m) with
  | Ok decoded_payload => expected_text rt w (topic m) decoded_payload
  | Raise _ => None
  end.

End Table.

(** ** A runtime with the interpreter's limit on integer literals *)

Module LimitScenario.



(** A decimal integer literal of more than 4300 digits. *)
Definition over_digit_limit (s : string) : bool :=
  match s with
  | String c _ =>
      Utf8.between 49 57 c && PyStr.all_digits s
      && (4300 <? N.of_nat (String.length s))%N
  | EmptyString => false
  end.

(** [json.loads] of such a literal raises the [ValueError] of the integer
    conversion, not a [JSONDecodeError]; the other documents decode as in
    [Scenario.python]. *)
Definition python : PyRuntime :=
  {| json_loads := fun s =>
       if over_digit_limit s then Raise ValueError else json_loads Scenario.python s;
     repr_other := repr_other Scenario.python;
     float_of_str := float_of_str Scenario.python |}.

End LimitScenario.

(** ** Reading a fixed-point numeral *)

Module Reading.

Definition digit_value (c : ascii) : Z := Z.of_N (N_of_ascii c) - 48.

Fixpoint numeral_acc (s : string) (acc : Z) : Z :=
  match s with
  | EmptyString => acc
  | String c s' => numeral_acc s' (10 * acc + digit_value c)
  end.

(** The number a string of decimal digits denotes. *)
Definition numeral (s : string) : Z := numeral_acc s 0.

(** The sign of a numeral, and the rest of it. *)
Definition unsigned (s : string) : bool * string :=
  match s with
  | String c rest => if Ascii.eqb c "-" then (true, rest) else (false, s)
  | EmptyString => (false, s)
  end.

(** The sign and the number of millionths that a text of the form
    [-]digits.dddddd denotes; [None] for any other text. *)
Definition read_6f (s : string) : option (bool * Z) :=
  let (negative, body) := unsigned s in
  match PyStr.split "." body with
  | [whole; frac] =>
      if PyStr.all_digits whole && negb (String.eqb whole EmptyString)
         && PyStr.all_digits frac && Nat.eqb (String.length frac) 6
      then Some (negative, numeral whole * 1000000 + numeral frac)
      else None
  | _ => None
  end.

End Reading.

(** ** Lemmas on text *)

Module PyStrFacts.
Import PyStr.

Lemma split_not_nil (c : ascii) (s : string) : split c s <> [].
Proof.
  destruct s as [|d s']; simpl.
  - discriminate.
  - destruct (Ascii.eqb d c); [discriminate|].
    destruct (split c s'); discriminate.
Qed.

Lemma split_free (c : ascii) (s : string) :
  free_of c s = true -> split c s = [s].
Proof.
  induction s as [|d s' IH]; simpl; intros H.
  - reflexivity.
  - apply andb_prop in H as [Hd Hs].
    apply negb_true_iff in Hd. rewrite Hd, (IH Hs). reflexivity.
Qed.

Lemma split_two (c : ascii) (s : string) :
  free_of c s = false -> exists u v l, split c s = u :: v :: l.
Proof.
  induction s as [|d s' IH]; simpl; intros H.
  - discriminate.
  - destruct (Ascii.eqb d c) eqn:E; simpl in H.
    + destruct (split c s') as [|v l] eqn:S.
      * now apply split_not_nil in S.
      * now exists EmptyString, v, l.
    + destruct (IH H) as (u & v & l & S). rewrite S.
      now exists (String d u), v, l.
Qed.

Lemma after_last_free (c : ascii) (s : string) :
  free_of c s = true -> Spec.after_last c s = s.
Proof.
  destruct s as [|d s']; simpl; intros H.
  - reflexivity.
  - apply andb_prop in H as [Hd Hs].
    apply negb_true_iff in Hd. now rewrite Hs, Hd.
Qed.

(** [split] followed by [[-1]] is the suffix after the last separator. *)
Lemma last_split (c : ascii) (s : string) :
  last_item (split c s) = Spec.after_last c s.
Proof.
  unfold last_item.
  induction s as [|d s' IH]; simpl.
  - reflexivity.
  - destruct (free_of c s') eqn:F.
    + rewrite (split_free _ _ F) in *.
      destruct (Ascii.eqb d c); reflexivity.
    + destruct (split_two _ _ F) as (u & v & l & S).
      rewrite S in *. rewrite <- IH.
      destruct (Ascii.eqb d c); reflexivity.
Qed.

Lemma after_last_is_free (c : ascii) (s : string) :
  free_of c (Spec.after_last c s) = true.
Proof.
  induction s as [|d s' IH]; simpl.
  - reflexivity.
  - destruct (free_of c s') eqn:F; [|exact IH].
    destruct (Ascii.eqb d c) eqn:E; simpl.
    + exact F.
    + now rewrite E, F.
Qed.

Lemma after_last_suffix (c : ascii) (s : string) :
  free_of c s = false ->
  exists p, s = p ++ String c (Spec.after_last c s).
Proof.
  induction s as [|d s' IH]; simpl; intros H.
  - discriminate.
  - destruct (free_of c s') eqn:F.
    + destruct (Ascii.eqb d c) eqn:E; simpl in H; [|discriminate].
      apply Ascii.eqb_eq in E. subst d. now exists EmptyString.
    + destruct (IH eq_refl) as [p Hp].
      exists (String d p). simpl. now rewrite <- Hp.
Qed.

Lemma contains_not_free (c : ascii) (sub s : string) :
  contains (String c sub) s = true -> free_of c s = false.
Proof.
  induction s as [|d s' IH]; simpl.
  - discriminate.
  - destruct (ascii_dec c d) as [->|N].
    + intros _. now rewrite Ascii.eqb_refl.
    + intros H. rewrite (IH H). apply andb_false_r.
Qed.

Lemma length_app (a b : string) :
  String.length (a ++ b) = (String.length a + String.length b)%nat.
Proof. induction a as [|c a IH]; simpl; [reflexivity|now rewrite IH]. Qed.

Lemma app_assoc (a b c : string) : (a ++ b) ++ c = a ++ b ++ c.
Proof. induction a as [|x a IH]; simpl; [reflexivity|now rewrite IH]. Qed.

Lemma all_digits_app (a b : string) :
  all_digits (a ++ b) = all_digits a && all_digits b.
Proof.
  induction a as [|c a IH]; simpl; [reflexivity|].
  now rewrite IH, andb_assoc.
Qed.

Lemma is_digit_digit (n : Z) : is_digit (digit n) = true.
Proof.
  unfold digit.
  assert (H : 0 <= n mod 10 < 10) by (apply Z.mod_pos_bound; lia).
  assert (C : n mod 10 = 0 \/ n mod 10 = 1 \/ n mod 10 = 2 \/ n mod 10 = 3
              \/ n mod 10 = 4 \/ n mod 10 = 5 \/ n mod 10 = 6 \/ n mod 10 = 7
              \/ n mod 10 = 8 \/ n mod 10 = 9) by lia.
  repeat (destruct C as [C|C]; [rewrite C; reflexivity|]).
  rewrite C. reflexivity.
Qed.

Lemma length_digits (k : nat) (n : Z) : String.length (digits k n) = k.
Proof.
  revert n. induction k as [|k IH]; intros n; simpl; [reflexivity|].
  rewrite length_app, IH. simpl. lia.
Qed.

Lemma all_digits_digits (k : nat) (n : Z) : all_digits (digits k n) = true.
Proof.
  revert n. induction k as [|k IH]; intros n; simpl; [reflexivity|].
  rewrite all_digits_app, IH. simpl. now rewrite is_digit_digit.
Qed.

(** The fixed-point format of a zero or of a finite number has six decimals. *)
Lemma format_6f_six_decimals (x : spec_float) :
  Float64.is_finite x = true -> Spec.six_decimals (Float64.format_6f x).
Proof.
  destruct x as [s|s| |s m e]; simpl; try discriminate; intros _.
  - exists (Float64.sign s ++ "0"), "000000".
    rewrite app_assoc. repeat split.
  - exists (Float64.sign s ++ Float64.int_digits (Float64.micro_units m e)),
           (Float64.frac_digits (Float64.micro_units m e)).
    rewrite app_assoc. unfold Float64.frac_digits.
    split; [reflexivity|]. split; [apply length_digits|apply all_digits_digits].
Qed.

Lemma length_take (n : nat) (s : string) : (String.length (take n s) <= n)%nat.
Proof.
  unfold take. revert s. induction n as [|n IH]; intros [|c s]; simpl; try lia.
  specialize (IH s). lia.
Qed.

Lemma take_is_prefix (n : nat) (s : string) : prefix (take n s) s = true.
Proof.
  unfold take. revert s. induction n as [|n IH]; intros [|c s]; simpl; try reflexivity.
  destruct (ascii_dec c c) as [_|N]; [apply IH|now elim N].
Qed.

Lemma normalize_ip_text (raw : string) :
  normalize_ip (PStr raw) = Ok (PStr (Spec.normalized_ip raw)).
Proof.
  unfold normalize_ip, Spec.normalized_ip. simpl py_in.
  destruct (contains "::ffff:" raw); [|reflexivity].
  simpl. now rewrite last_split.
Qed.

Lemma sent_texts_app (a b : trace) :
  sent_texts (a ++ b)%list = (sent_texts a ++ sent_texts b)%list.
Proof.
  induction a as [|ev a IH]; simpl; [reflexivity|].
  destruct ev; simpl; now rewrite ?IH.
Qed.

End PyStrFacts.

(** ** Lemmas on computations *)

Module Silent.
Import Spec.

Lemma ret_ {A} (a : A) : silent (ret a).
Proof. reflexivity. Qed.

Lemma lift_ {A} (r : result A) : silent (lift r).
Proof. reflexivity. Qed.

Lemma raise_ {A} (e : exn) : silent (@raise A e).
Proof. reflexivity. Qed.

Lemma log_ lvl msg : silent (emit (Log lvl msg)).
Proof. reflexivity. Qed.

Lemma log_exc_ lvl msg e : silent (emit (LogExc lvl msg e)).
Proof. reflexivity. Qed.

Lemma traceback_ msg e : silent (emit (LogTraceback msg e)).
Proof. reflexivity. Qed.

Lemma bind_ {A B} (m : M A) (k : A -> M B) :
  silent m -> (forall a, silent (k a)) -> silent (bind m k).
Proof.
  unfold silent, effects. destruct m as [t [a|e]]; simpl; intros Hm Hk; [|exact Hm].
  specialize (Hk a). destruct (k a) as [t' r]. simpl in *.
  now rewrite PyStrFacts.sent_texts_app, Hm, Hk.
Qed.

Lemma try_ {A} (m : M A) (caught : exn -> bool) (h : exn -> M A) :
  silent m -> (forall e, silent (h e)) -> silent (try_except m caught h).
Proof.
  unfold silent, effects. destruct m as [t [a|e]]; simpl; intros Hm Hh; [exact Hm|].
  destruct (caught e); [|exact Hm].
  specialize (Hh e). destruct (h e) as [t' r]. simpl in *.
  now rewrite PyStrFacts.sent_texts_app, Hm, Hh.
Qed.

Lemma if_ {A} (b : bool) (x y : M A) :
  silent x -> silent y -> silent (if b then x else y).
Proof. now destruct b. Qed.

Lemma outcome_bind {A B} (m : M A) (k : A -> M B) :
  outcome (bind m k)
  = match outcome m with Ok a => outcome (k a) | Raise e => Raise e end.
Proof. destruct m as [t [a|e]]; cbn; [|reflexivity]. now destruct (k a). Qed.

Lemma outcome_try {A} (m : M A) (caught : exn -> bool) (h : exn -> M A) :
  outcome (try_except m caught h)
  = match outcome m with
    | Ok a => Ok a
    | Raise e => if caught e then outcome (h e) else Raise e
    end.
Proof.
  destruct m as [t [a|e]]; cbn; [reflexivity|].
  destruct (caught e); [|reflexivity]. now destruct (h e).
Qed.

End Silent.

Create HintDb silent.
#[local] Hint Resolve Silent.ret_ Silent.lift_ Silent.raise_ Silent.log_ Silent.log_exc_
  Silent.traceback_ Silent.bind_ Silent.try_ Silent.if_ : silent.

Section HandlerFacts.

Variable rt : PyRuntime.
Variable cfg : Config.
Variable w : World.

(** The lookup ends normally, with [None] or with the decoded body of a
    successful answer, and the body is then a dict. *)
Lemma get_ip_info_cases (ip : pyval) :
  (exists t, get_ip_info rt w ip = (t, Ok PNone))
  \/ (exists d, lookup "status" d = Some (PStr "success")
                /\ http_get_json w (Spec.lookup_url (py_str rt ip)) = Ok (PDict d)
                /\ get_ip_info rt w ip = ([], Ok (PDict d))).
Proof.
  unfold get_ip_info, Spec.lookup_url.
  destruct (http_get_json w _) as [data|e] eqn:H; cbn.
  2:{ left. eexists. reflexivity. }
  destruct data; cbn; try (left; eexists; reflexivity).
  destruct (lookup "status" d) as [st|] eqn:L; cbn.
  2:{ left. eexists. reflexivity. }
  destruct (py_eq_str st "success") eqn:E; cbn.
  - right. exists d. repeat split.
    destruct st; try discriminate. cbn in E. apply String.eqb_eq in E. now subst.
  - left. eexists. reflexivity.
Qed.

Lemma get_ip_info_failed (ip : pyval) :
  Spec.lookup_failed w (Spec.lookup_url (py_str rt ip)) ->
  outcome (get_ip_info rt w ip) = Ok PNone.
Proof.
  unfold Spec.lookup_failed, get_ip_info, Spec.lookup_url.
  destruct (http_get_json w _) as [data|e]; cbn; [|reflexivity].
  destruct (py_getitem data "status") as [st|e]; cbn; [|reflexivity].
  intros ->. reflexivity.
Qed.

Lemma get_ip_info_silent (ip : pyval) : Spec.silent (get_ip_info rt w ip).
Proof. unfold get_ip_info. auto 10 with silent. Qed.

Lemma process_ip_info_silent (ip : pyval) : Spec.silent (process_ip_info rt w ip).
Proof.
  unfold process_ip_info. pose proof get_ip_info_silent. auto 10 with silent.
Qed.

Lemma format_payload_silent (tp raw : string) : Spec.silent (format_payload rt w tp raw).
Proof.
  unfold format_payload. pose proof process_ip_info_silent. auto 20 with silent.
Qed.

(** The sender ends normally, whatever the client does, and hands nothing
    over itself. *)
Lemma send_returns (text : string) :
  outcome (send_telegram_message cfg w text) = Ok tt
  /\ sent_texts (effects (send_telegram_message cfg w text)) = [].
Proof.
  unfold send_telegram_message.
  destruct (String.eqb (TELEGRAM_DEBUG cfg) "YES"); cbn;
    destruct (bot_create w _) as [[]|e0]; cbn; try (split; reflexivity);
    destruct (bot_send_message w _ _ _); cbn; split; reflexivity.
Qed.

(** The callback, case by case. *)
Lemma on_message_cases (m : MQTTMessage) :
  on_message rt cfg w m =
  match payload_decode (payload m) with
  | Raise e => (Spec.boundary_records e, Ok tt)
  | Ok raw =>
      let dbg := Spec.mqtt_debug_records cfg (topic m) raw in
      let tf := effects (format_payload rt w (topic m) raw) in
      match outcome (format_payload rt w (topic m) raw) with
      | Ok (Some text) =>
          ((dbg ++ tf ++ Send (CHAT_ID cfg) text
                         :: effects (send_telegram_message cfg w text))%list,
           Ok tt)
      | Ok None =>
          ((dbg ++ tf ++ Spec.boundary_records (UnboundLocalError "message_text"))%list,
           Ok tt)
      | Raise e => ((dbg ++ tf ++ Spec.boundary_records e)%list, Ok tt)
      end
  end.
Proof.
  unfold on_message, Spec.mqtt_debug_records.
  destruct (payload_decode (payload m)) as [raw|e]; cbn; [|reflexivity].
  destruct (String.eqb (MQTT_DEBUG cfg) "YES"); cbn;
    destruct (format_payload rt w (topic m) raw) as [tf [[text|]|e]]; cbn;
    rewrite ?app_nil_r; try reflexivity;
    destruct (send_returns text) as [Ho _];
    destruct (send_telegram_message cfg w text) as [ts [[]|e]]; cbn in *;
    rewrite ?app_nil_r; try reflexivity; discriminate.
Qed.

Lemma on_message_returns (m : MQTTMessage) :
  outcome (on_message rt cfg w m) = Ok tt.
Proof.
  rewrite on_message_cases.
  destruct (payload_decode (payload m)) as [raw|e]; [|reflexivity]. cbv zeta.
  now destruct (outcome (format_payload rt w (topic m) raw)) as [[text|]|e].
Qed.

(** What the handler hands over is the outbound text, once, or nothing. *)
Lemma on_message_sent (m : MQTTMessage) :
  sent_texts (effects (on_message rt cfg w m)) =
  match Spec.outbound_text rt w m with Some text => [text] | None => [] end.
Proof.
  rewrite on_message_cases. unfold Spec.outbound_text.
  destruct (payload_decode (payload m)) as [raw|e]; [|reflexivity]. cbv zeta.
  pose proof (format_payload_silent (topic m) raw) as Hs. unfold Spec.silent in Hs.
  assert (Hd : sent_texts (Spec.mqtt_debug_records cfg (topic m) raw) = []).
  { unfold Spec.mqtt_debug_records. now destruct (String.eqb (MQTT_DEBUG cfg) "YES"). }
  destruct (outcome (format_payload rt w (topic m) raw)) as [[text|]|e];
    cbn [effects fst]; rewrite !PyStrFacts.sent_texts_app, Hd, Hs; cbn [sent_texts app];
    try reflexivity.
  now destruct (send_returns text) as [_ ->].
Qed.

(** A message with no outbound text ends at the handler boundary. *)
Lemma on_message_dropped (m : MQTTMessage) :
  Spec.outbound_text rt w m = None ->
  exists e before,
    effects (on_message rt cfg w m) = (before ++ Spec.boundary_records e)%list
    /\ sent_texts before = [].
Proof.
  rewrite on_message_cases. unfold Spec.outbound_text.
  destruct (payload_decode (payload m)) as [raw|e].
  2:{ intros _. exists e, []. split; reflexivity. }
  pose proof (format_payload_silent (topic m) raw) as Hs. unfold Spec.silent in Hs.
  assert (Hd : sent_texts (Spec.mqtt_debug_records cfg (topic m) raw) = []).
  { unfold Spec.mqtt_debug_records. now destruct (String.eqb (MQTT_DEBUG cfg) "YES"). }
  cbv zeta.
  destruct (outcome (format_payload rt w (topic m) raw)) as [[text|]|e];
    intros H; try discriminate.
  - exists (UnboundLocalError "message_text"),
      (Spec.mqtt_debug_records cfg (topic m) raw
       ++ effects (format_payload rt w (topic m) raw))%list.
    unfold effects at 1. cbn [fst].
    rewrite app_assoc, PyStrFacts.sent_texts_app, Hd, Hs. split; reflexivity.
  - exists e,
      (Spec.mqtt_debug_records cfg (topic m) raw
       ++ effects (format_payload rt w (topic m) raw))%list.
    unfold effects at 1. cbn [fst].
    rewrite app_assoc, PyStrFacts.sent_texts_app, Hd, Hs. split; reflexivity.
Qed.

Lemma on_message_delivers (m : MQTTMessage) (raw text : string) :
  payload_decode (payload m) = Ok raw ->
  outcome (format_payload rt w (topic m) raw) = Ok (Some text) ->
  sent_texts (effects (on_message rt cfg w m)) = [text].
Proof.
  intros Hd Hf. rewrite on_message_sent. unfold Spec.outbound_text.
  now rewrite Hd, Hf.
Qed.

(** The normalization raises a type or an attribute error only. *)
Lemma normalize_ip_raises (v : pyval) (e : exn) :
  normalize_ip v = Raise e -> is_json_decode_error e = false.
Proof.
  unfold normalize_ip.
  destruct v; cbn; try (intros [= <-]; reflexivity).
  - destruct (PyStr.contains "::ffff:" s); discriminate.
  - destruct (existsb _ l); [intros [= <-]; reflexivity|discriminate].
  - destruct (lookup "::ffff:" d); [intros [= <-]; reflexivity|discriminate].
Qed.

(** A client payload in neither state leaves [message_text] unbound, or
    raises while the IP is normalized; it writes no record. *)
Lemma format_payload_unknown_state (raw : string) (d : list (string * pyval)) :
  json_loads rt raw = Ok (PDict d) ->
  Spec.field_is d "mode" "CLIENT" ->
  Spec.field_is_not d "state" "Connected" ->
  Spec.field_is_not d "state" "Disconnected" ->
  format_payload rt w Spec.client_topic raw
  = ([], match normalize_ip (match lookup "ip" d with
                             | Some v => v
                             | None => PStr EmptyString
                             end) with
         | Ok _ => Ok None
         | Raise e => Raise e
         end).
Proof.
  intros Hl Hmode Hc Hd.
  unfold format_payload, Spec.client_topic, Spec.field_is, Spec.field_is_not in *.
  rewrite Hl. cbn. rewrite Hmode. cbn.
  destruct (normalize_ip _) as [ip|e] eqn:E; cbn.
  - destruct (lookup "state" d) as [st|]; cbn; [rewrite Hc, Hd|]; reflexivity.
  - now rewrite (normalize_ip_raises _ _ E).
Qed.

(** The normalization on the payload's IP field. *)
Lemma ip_field_normalized (d : list (string * pyval)) (ip : string) :
  Spec.ip_field d ip ->
  normalize_ip (match lookup "ip" d with Some v => v | None => PStr EmptyString end)
  = Ok (PStr (Spec.normalized_ip ip)).
Proof.
  unfold Spec.ip_field.
  destruct (lookup "ip" d) as [[| | | |t| |]|]; try contradiction; intros <-;
    apply PyStrFacts.normalize_ip_text.
Qed.


(** The telemetry loop renders every item when the frequency converts. *)
Lemma rx_parts_lines (d : list (string * pyval)) :
  Spec.freq_converts rt d = true ->
  exists parts, rx_parts rt d = Ok parts /\ Forall2 (Spec.telemetry_line rt) d parts.
Proof.
  induction d as [|kv d IH]; simpl; intros H.
  - exists []. split; [reflexivity|constructor].
  - apply andb_prop in H as [Hkv Hd].
    destruct (IH Hd) as (parts & Hparts & Hall). rewrite Hparts.
    unfold rx_part, plain_part, Spec.converts in *.
    destruct (String.eqb (fst kv) "freq") eqn:E.
    + destruct (py_float rt (snd kv)) as [x|e] eqn:F; [|discriminate].
      eexists. split; [reflexivity|].
      constructor; [|exact Hall].
      unfold Spec.telemetry_line. rewrite E.
      apply String.eqb_eq in E. rewrite E.
      exists x. split; [exact F|]. split; [reflexivity|].
      apply PyStrFacts.format_6f_six_decimals.
    + eexists. split; [reflexivity|].
      constructor; [|exact Hall].
      unfold Spec.telemetry_line. rewrite E. reflexivity.
Qed.

End HandlerFacts.

(** ** Lemmas on the edge cases *)

Module EdgeFacts.

Lemma free_not_contains (c : ascii) (sub s : string) :
  PyStr.free_of c s = true -> PyStr.contains (String c sub) s = false.
Proof.
  intros F. destruct (PyStr.contains (String c sub) s) eqn:C; [|reflexivity].
  apply PyStrFacts.contains_not_free in C. congruence.
Qed.

Lemma py_float_raises (rt : PyRuntime) (v : pyval) (e : exn) :
  py_float rt v = Raise e -> is_json_decode_error e = false.
Proof.
  destruct v; cbn; try (intros [= <-]; reflexivity); try discriminate.
  - unfold Float64.of_int. destruct (Float64.is_finite _); [discriminate|].
    intros [= <-]. reflexivity.
  - destruct (float_of_str rt s); [discriminate|]. intros [= <-]. reflexivity.
Qed.

(** The telemetry loop raises when a frequency does not convert, and what
    it raises is not a decoding error. *)
Lemma rx_parts_raises (rt : PyRuntime) (d : list (string * pyval)) :
  Spec.freq_converts rt d = false ->
  exists e, rx_parts rt d = Raise e /\ is_json_decode_error e = false.
Proof.
  induction d as [|kv d IH]; simpl; [discriminate|].
  unfold rx_part, Spec.converts.
  destruct (String.eqb (fst kv) "freq") eqn:E.
  - destruct (py_float rt (snd kv)) as [x|e] eqn:F; simpl.
    + intros H. destruct (IH H) as (e & He & Hj). rewrite He. now exists e.
    + intros _. exists e. split; [reflexivity|]. now apply py_float_raises in F.
  - simpl. intros H. destruct (IH H) as (e & He & Hj). rewrite He. now exists e.
Qed.

Lemma rx_parts_no_freq (rt : PyRuntime) (d : list (string * pyval)) :
  Edge.no_freq d = true -> rx_parts rt d = Ok (map (plain_part rt) d).
Proof.
  induction d as [|kv d IH]; simpl; [reflexivity|].
  intros H. apply andb_prop in H as [Hk Hd].
  unfold rx_part. apply negb_true_iff in Hk. rewrite Hk, (IH Hd). reflexivity.
Qed.

Lemma join_split (c : ascii) (s : string) :
  PyStr.join (String c EmptyString) (PyStr.split c s) = s.
Proof.
  unfold PyStr.join.
  induction s as [|d s IH]; simpl; [reflexivity|].
  destruct (Ascii.eqb d c) eqn:E.
  - apply Ascii.eqb_eq in E. subst d.
    destruct (PyStr.split c s) as [|u l] eqn:S; [now apply PyStrFacts.split_not_nil in S|].
    simpl in *. now rewrite IH.
  - destruct (PyStr.split c s) as [|u l] eqn:S; [now apply PyStrFacts.split_not_nil in S|].
    destruct l as [|v l]; simpl in *; now rewrite IH.
Qed.

Lemma visible_app (a b : trace) :
  Edge.visible (a ++ b)%list = (Edge.visible a ++ Edge.visible b)%list.
Proof. unfold Edge.visible. apply filter_app. Qed.

Lemma visible_mqtt_debug (cfg : Config) (tp raw : string) :
  Edge.visible (Spec.mqtt_debug_records cfg tp raw) = [].
Proof.
  unfold Spec.mqtt_debug_records. now destruct (String.eqb (MQTT_DEBUG cfg) "YES").
Qed.

Lemma visible_handover (chat text : string) (t : trace) :
  Edge.visible (Send chat text :: t) = Send chat text :: Edge.visible t.
Proof. reflexivity. Qed.

(** The effects of the sender that survive the DEBUG filter. *)
Lemma visible_send (cfg : Config) (w : World) (text : string) :
  Edge.visible (effects (send_telegram_message cfg w text))
  = match bot_create w (TELEGRAM_TOKEN cfg) with
    | Raise e => Spec.delivery_failure_records cfg e
    | Ok _ =>
        match bot_send_message w (TELEGRAM_TOKEN cfg) (CHAT_ID cfg) text with
        | Ok response =>
            [Call (CHAT_ID cfg) text;
             Log INFO ("Message sent successfully to Telegram. Message ID: "
                       ++ PyStr.of_Z (message_id response))]
        | Raise e => Call (CHAT_ID cfg) text :: Spec.delivery_failure_records cfg e
        end
    end.
Proof.
  unfold send_telegram_message.
  destruct (String.eqb (TELEGRAM_DEBUG cfg) "YES"); cbn;
    destruct (bot_create w _) as [[]|e0]; cbn; try reflexivity;
    destruct (bot_send_message w _ _ _); reflexivity.
Qed.

End EdgeFacts.

(** ** Lemmas on the delivery step and on the decision table *)

Module Calls.
Import Delivery.

Lemma client_calls_app (a b : trace) :
  client_calls (a ++ b)%list = (client_calls a ++ client_calls b)%list.
Proof.
  induction a as [|ev a IH]; simpl; [reflexivity|].
  destruct ev; simpl; now rewrite ?IH.
Qed.

Lemma calls_ret {A} (a : A) : calls_nothing (ret a).
Proof. reflexivity. Qed.

Lemma calls_lift {A} (r : result A) : calls_nothing (lift r).
Proof. reflexivity. Qed.

Lemma calls_log lvl msg : calls_nothing (emit (Log lvl msg)).
Proof. reflexivity. Qed.

Lemma calls_log_exc lvl msg e : calls_nothing (emit (LogExc lvl msg e)).
Proof. reflexivity. Qed.

Lemma calls_bind {A B} (m : M A) (k : A -> M B) :
  calls_nothing m -> (forall a, calls_nothing (k a)) -> calls_nothing (bind m k).
Proof.
  unfold calls_nothing, effects. destruct m as [t [a|e]]; simpl; intros Hm Hk; [|exact Hm].
  specialize (Hk a). destruct (k a) as [t' r]. simpl in *.
  now rewrite client_calls_app, Hm, Hk.
Qed.

Lemma calls_try {A} (m : M A) (caught : exn -> bool) (h : exn -> M A) :
  calls_nothing m -> (forall e, calls_nothing (h e)) -> calls_nothing (try_except m caught h).
Proof.
  unfold calls_nothing, effects. destruct m as [t [a|e]]; simpl; intros Hm Hh; [exact Hm|].
  destruct (caught e); [|exact Hm].
  specialize (Hh e). destruct (h e) as [t' r]. simpl in *.
  now rewrite client_calls_app, Hm, Hh.
Qed.

Lemma calls_if {A} (b : bool) (x y : M A) :
  calls_nothing x -> calls_nothing y -> calls_nothing (if b then x else y).
Proof. now destruct b. Qed.

End Calls.

Create HintDb calls.
#[local] Hint Resolve Calls.calls_ret Calls.calls_lift Calls.calls_log Calls.calls_log_exc Calls.calls_bind
  Calls.calls_try Calls.calls_if : calls.

Section TableFacts.

Variable rt : PyRuntime.
Variable cfg : Config.
Variable w : World.

Lemma format_payload_calls_nothing (tp raw : string) :
  Delivery.calls_nothing (format_payload rt w tp raw).
Proof.
  assert (Hg : forall ip, Delivery.calls_nothing (get_ip_info rt w ip)).
  { intros ip. unfold get_ip_info. auto 10 with calls. }
  assert (Hp : forall ip, Delivery.calls_nothing (process_ip_info rt w ip)).
  { intros ip. unfold process_ip_info. auto 10 with calls. }
  unfold format_payload. auto 20 with calls.
Qed.

(** The sender, case by case. *)
Lemma send_cases (text : string) :
  send_telegram_message cfg w text
  = ((Spec.telegram_debug_records cfg text
      ++ match bot_create w (TELEGRAM_TOKEN cfg) with
         | Raise e => Spec.delivery_failure_records cfg e
         | Ok _ =>
             Call (CHAT_ID cfg) text
             :: match bot_send_message w (TELEGRAM_TOKEN cfg) (CHAT_ID cfg) text with
                | Ok response =>
                    [Log INFO ("Message sent successfully to Telegram. Message ID: "
                               ++ PyStr.of_Z (message_id response));
                     Log DEBUG ("Full Telegram response: " ++ tg_repr response)]
                | Raise e => Spec.delivery_failure_records cfg e
                end
         end)%list,
     Ok tt).
Proof.
  unfold send_telegram_message, Spec.telegram_debug_records.
  destruct (String.eqb (TELEGRAM_DEBUG cfg) "YES"); cbn;
    destruct (bot_create w _) as [[]|e0]; cbn; try reflexivity;
    destruct (bot_send_message w _ _ _); reflexivity.
Qed.

(** The sender awaits the client once when the [Bot] is built, and not at
    all otherwise. *)
Lemma send_calls (text : string) :
  client_calls (effects (send_telegram_message cfg w text))
  = match bot_create w (TELEGRAM_TOKEN cfg) with Ok _ => [text] | Raise _ => [] end.
Proof.
  rewrite send_cases. cbn [effects fst]. rewrite Calls.client_calls_app.
  assert (Hd : client_calls (Spec.telegram_debug_records cfg text) = []).
  { unfold Spec.telegram_debug_records.
    now destruct (String.eqb (TELEGRAM_DEBUG cfg) "YES"). }
  rewrite Hd.
  destruct (bot_create w _) as [[]|e0]; [|reflexivity].
  now destruct (bot_send_message w _ _ _).
Qed.

(** The telemetry loop builds the lines of the table. *)
Lemma rx_parts_table (d : list (string * pyval)) :
  Spec.freq_converts rt d = true -> rx_parts rt d = Ok (map (Table.line rt) d).
Proof.
  induction d as [|kv d IH]; simpl; [reflexivity|].
  intros H. apply andb_prop in H as [Hkv Hd]. rewrite (IH Hd).
  unfold rx_part, Table.line, plain_part, Spec.converts, Spec.mhz in *.
  destruct (String.eqb (fst kv) "freq") eqn:E; [|reflexivity].
  apply String.eqb_eq in E. rewrite E.
  destruct (py_float rt (snd kv)); [reflexivity|discriminate].
Qed.

(** The lookup returns what the table reads from the service. *)
Lemma get_ip_info_table (ip : pyval) :
  outcome (get_ip_info rt w ip)
  = Ok (match Table.geo_answer w (py_str rt ip) with
        | Some g => PDict g
        | None => PNone
        end).
Proof.
  unfold get_ip_info, Table.geo_answer, Table.has, Spec.lookup_url.
  destruct (http_get_json w _) as [data|e]; cbn; [|reflexivity].
  destruct data; cbn; try reflexivity.
  destruct (lookup "status" d) as [st|]; cbn; [|reflexivity].
  destruct (py_eq_str st "success"); reflexivity.
Qed.

Lemma geo_answer_not_empty (ip : string) :
  Table.geo_answer w ip <> Some [].
Proof.
  unfold Table.geo_answer, Table.has.
  destruct (http_get_json w _) as [[| | | | | |g]|e]; try discriminate.
  destruct g as [|kv g]; [discriminate|].
  destruct (match lookup "status" (kv :: g) with Some v => _ | None => _ end);
    discriminate.
Qed.

(** The Connected text is the one of the table. *)
Lemma process_ip_info_table (ip : pyval) :
  outcome (process_ip_info rt w ip) = Ok (Table.connected rt w (py_str rt ip)).
Proof.
  unfold process_ip_info, Table.connected.
  pose proof (get_ip_info_table ip) as Hg.
  pose proof (geo_answer_not_empty (py_str rt ip)) as Hne.
  destruct (get_ip_info rt w ip) as [t r]. cbn [outcome snd] in Hg. subst r.
  destruct (Table.geo_answer w (py_str rt ip)) as [g|]; cbn; [|reflexivity].
  destruct g as [|kv g]; [now elim Hne|]. reflexivity.
Qed.

(** The IP of line 114 is the one the table shows. *)
Lemma normalize_ip_table (d : list (string * pyval)) :
  match normalize_ip (match lookup "ip" d with Some v => v | None => PStr EmptyString end) with
  | Ok ip => Table.shown_ip rt d = Some (py_str rt ip)
  | Raise e => Table.shown_ip rt d = None /\ is_json_decode_error e = false
  end.
Proof.
  unfold Table.shown_ip.
  destruct (lookup "ip" d) as [v|]; [|reflexivity].
  destruct v; try (split; reflexivity).
  - rewrite PyStrFacts.normalize_ip_text. reflexivity.
  - unfold normalize_ip. cbn. destruct (existsb _ l); [split|]; reflexivity.
  - unfold normalize_ip. cbn. destruct (lookup "::ffff:" d0); [split|]; reflexivity.
Qed.

(** The binding of [message_text] after the inner [try] is the text of the
    decision table. *)
Lemma format_payload_table (tp raw : string) :
  match outcome (format_payload rt w tp raw) with
  | Ok (Some text) => Some text
  | _ => None
  end = Table.expected_text rt w tp raw.
Proof.
  unfold format_payload, Table.expected_text, Spec.client_topic, Spec.telemetry_topic.
  destruct (json_loads rt raw) as [v|e]; cbn.
  2:{ destruct (is_json_decode_error e); reflexivity. }
  destruct (String.eqb tp "OpenwebRX/CLIENT") eqn:Ec; cbn.
  - apply String.eqb_eq in Ec. subst tp.
    destruct v; try reflexivity. cbn. unfold Table.has.
    destruct (lookup "mode" d) as [mode|]; cbn; [|reflexivity].
    destruct (py_eq_str mode "CLIENT"); cbn; [|reflexivity].
    pose proof (normalize_ip_table d) as Hip.
    destruct (normalize_ip _) as [ip|e]; cbn.
    + rewrite Hip.
      destruct (lookup "state" d) as [state|]; cbn; [|reflexivity].
      destruct (py_eq_str state "Connected"); cbn.
      * pose proof (process_ip_info_table ip) as Hp.
        destruct (process_ip_info rt w ip) as [t [text|e]]; cbn in *;
          [injection Hp as ->; reflexivity|discriminate].
      * destruct (py_eq_str state "Disconnected"); reflexivity.
    + destruct Hip as [-> Hj]. now rewrite Hj.
  - destruct (String.eqb tp "OpenwebRX/RX"); cbn; [|reflexivity].
    destruct v; try reflexivity. cbn. unfold Table.telemetry.
    destruct (Spec.freq_converts rt d) eqn:C.
    + now rewrite (rx_parts_table d C).
    + destruct (EdgeFacts.rx_parts_raises rt d C) as (e & -> & Hj). cbn.
      now rewrite Hj.
Qed.

(** The text the handler has to deliver is the one of the table. *)
Lemma outbound_text_table (m : MQTTMessage) :
  Spec.outbound_text rt w m = Table.expected rt w m.
Proof.
  unfold Spec.outbound_text, Table.expected.
  destruct (payload_decode (payload m)) as [raw|e]; [|reflexivity].
  apply format_payload_table.
Qed.

(** What the callback hands over, and what it awaits the client with. *)
Lemma on_message_table (m : MQTTMessage) :
  sent_texts (effects (on_message rt cfg w m))
  = match Table.expected rt w m with Some text => [text] | None => [] end
  /\ client_calls (effects (on_message rt cfg w m))
     = match Table.expected rt w m, bot_create w (TELEGRAM_TOKEN cfg) with
       | Some text, Ok _ => [text]
       | _, _ => []
       end.
Proof.
  split.
  - rewrite on_message_sent. unfold Spec.outbound_text, Table.expected.
    destruct (payload_decode (payload m)) as [raw|e]; [|reflexivity].
    now rewrite <- format_payload_table.
  - rewrite on_message_cases. unfold Table.expected.
    destruct (payload_decode (payload m)) as [raw|e]; [|reflexivity]. cbv zeta.
    rewrite <- format_payload_table.
    pose proof (format_payload_calls_nothing (topic m) raw) as Hc.
    unfold Delivery.calls_nothing in Hc.
    assert (Hd : client_calls (Spec.mqtt_debug_records cfg (topic m) raw) = []).
    { unfold Spec.mqtt_debug_records. now destruct (String.eqb (MQTT_DEBUG cfg) "YES"). }
    destruct (outcome (format_payload rt w (topic m) raw)) as [[text|]|e];
      cbn [effects fst]; rewrite !Calls.client_calls_app, Hd, Hc;
      cbn [client_calls app Spec.boundary_records]; try reflexivity.
    rewrite send_calls. now destruct (bot_create w _).
Qed.

End TableFacts.
(** ** Lemmas on reading back the fixed-point rendering *)

Module ReadingFacts.
Import PyStr Reading.

Lemma numeral_acc_app (s t : string) (acc : Z) :
  numeral_acc (s ++ t) acc = numeral_acc t (numeral_acc s acc).
Proof.
  revert acc. induction s as [|c s IH]; intros acc; simpl; [reflexivity|apply IH].
Qed.

Lemma digit_value_digit (n : Z) : digit_value (digit n) = n mod 10.
Proof.
  unfold digit_value, digit.
  assert (H : 0 <= n mod 10 < 10) by (apply Z.mod_pos_bound; lia).
  rewrite N_ascii_embedding by lia. lia.
Qed.

(** The digits of [digits k n] denote [n] modulo [10^k]. *)
Lemma numeral_acc_digits (k : nat) (n acc : Z) :
  numeral_acc (digits k n) acc = acc * 10 ^ Z.of_nat k + n mod 10 ^ Z.of_nat k.
Proof.
  revert n acc. induction k as [|k IH]; intros n acc.
  - simpl. rewrite Z.mod_1_r. lia.
  - cbn [digits]. rewrite numeral_acc_app, IH. cbn [numeral_acc].
    rewrite digit_value_digit.
    replace (10 ^ Z.of_nat (S k)) with (10 * 10 ^ Z.of_nat k)
      by (rewrite Nat2Z.inj_succ, Z.pow_succ_r; lia).
    assert (Hp : 0 < 10 ^ Z.of_nat k) by (apply Z.pow_pos_nonneg; lia).
    rewrite (Z.rem_mul_r n 10 (10 ^ Z.of_nat k)) by lia.
    lia.
Qed.

Lemma numeral_uint_acc (d : Decimal.uint) (acc : positive) :
  numeral_acc (NilEmpty.string_of_uint d) (Zpos acc) = Zpos (Pos.of_uint_acc d acc).
Proof.
  revert acc.
  induction d as [|d IH|d IH|d IH|d IH|d IH|d IH|d IH|d IH|d IH|d IH];
    intros acc; cbn [NilEmpty.string_of_uint numeral_acc Pos.of_uint_acc];
    [reflexivity|..]; rewrite <- IH; f_equal;
    match goal with
    | |- context [digit_value ?c] =>
        let v := eval vm_compute in (digit_value c) in
        change (digit_value c) with v
    end; lia.
Qed.

Lemma numeral_uint (d : Decimal.uint) :
  numeral_acc (NilEmpty.string_of_uint d) 0 = Z.of_N (Pos.of_uint d).
Proof.
  induction d as [|d IH|d IH|d IH|d IH|d IH|d IH|d IH|d IH|d IH|d IH];
    cbn [NilEmpty.string_of_uint numeral_acc Pos.of_uint];
    [reflexivity|exact IH|..];
    cbn [N.to_nat Z.of_N]; rewrite <- numeral_uint_acc; reflexivity.
Qed.

Lemma all_digits_uint (d : Decimal.uint) :
  all_digits (NilEmpty.string_of_uint d) = true.
Proof.
  induction d; simpl; [reflexivity|..]; exact IHd.
Qed.

(** [str(n)] of a natural number is a numeral that denotes it. *)
Lemma of_Z_numeral (n : Z) :
  0 <= n ->
  numeral (of_Z n) = n
  /\ all_digits (of_Z n) = true
  /\ of_Z n <> EmptyString.
Proof.
  intros Hn. unfold of_Z, numeral. destruct n as [|p|p]; [|clear Hn|lia].
  - repeat split. discriminate.
  - cbn [Z.to_int NilZero.string_of_int].
    pose proof (DecimalPos.Unsigned.of_to p) as Hp.
    assert (Hs : NilZero.string_of_uint (Pos.to_uint p)
                 = NilEmpty.string_of_uint (Pos.to_uint p)).
    { destruct (Pos.to_uint p); [discriminate|reflexivity..]. }
    rewrite Hs, numeral_uint, Hp, all_digits_uint.
    repeat split.
    destruct (Pos.to_uint p); [discriminate|discriminate..].
Qed.

Lemma is_digit_not (c d : ascii) :
  is_digit d = false -> is_digit c = true -> Ascii.eqb c d = false.
Proof.
  intros Hd Hc. destruct (Ascii.eqb c d) eqn:E; [|reflexivity].
  apply Ascii.eqb_eq in E. subst. congruence.
Qed.

Lemma all_digits_free (d : ascii) (s : string) :
  is_digit d = false -> all_digits s = true -> free_of d s = true.
Proof.
  intros Hd. induction s as [|c s IH]; simpl; [reflexivity|].
  intros H. apply andb_prop in H as [Hc Hs].
  now rewrite (is_digit_not c d Hd Hc), IH.
Qed.

Lemma split_whole_frac (c : ascii) (a b : string) :
  free_of c a = true -> free_of c b = true ->
  split c (a ++ String c b) = [a; b].
Proof.
  intros Ha Hb. induction a as [|x a IH]; simpl in *.
  - rewrite Ascii.eqb_refl. now rewrite PyStrFacts.split_free.
  - apply andb_prop in Ha as [Hx Ha]. apply negb_true_iff in Hx.
    now rewrite Hx, (IH Ha).
Qed.

Lemma unsigned_sign (s : bool) (body : string) :
  all_digits body = true -> body <> EmptyString ->
  forall rest, unsigned (Float64.sign s ++ body ++ rest) = (s, body ++ rest).
Proof.
  intros Hd Hne rest. destruct s; [reflexivity|].
  destruct body as [|c body]; [now elim Hne|].
  simpl in *. apply andb_prop in Hd as [Hc _].
  now rewrite (is_digit_not c "-" eq_refl Hc).
Qed.

Lemma micro_units_nonneg (m : positive) (e : Z) : 0 <= Float64.micro_units m e.
Proof.
  unfold Float64.micro_units, Float64.round_half_even.
  destruct e as [|p|p].
  - lia.
  - assert (0 < 2 ^ Zpos p) by (apply Z.pow_pos_nonneg; lia). nia.
  - assert (Hden : 0 < 2 ^ Zpos p) by (apply Z.pow_pos_nonneg; lia).
    assert (0 <= Zpos m * 1000000 / 2 ^ Zpos p) by (apply Z.div_pos; lia).
    destruct (_ ?= _); [destruct (Z.even _)|..]; lia.
Qed.

(** The nearest micro-unit: exact when the exponent is not negative,
    within half a micro-unit otherwise. *)
Lemma micro_units_near (m : positive) (e : Z) :
  match e with
  | Zneg p =>
      2 * Z.abs (Zpos m * 1000000 - Float64.micro_units m e * 2 ^ Zpos p) <= 2 ^ Zpos p
  | _ => Float64.micro_units m e = Zpos m * 2 ^ e * 1000000
  end.
Proof.
  destruct e as [|p|p]; try reflexivity.
  unfold Float64.micro_units, Float64.round_half_even.
  set (num := Zpos m * 1000000). set (den := 2 ^ Zpos p).
  assert (Hden : 0 < den) by (apply Z.pow_pos_nonneg; lia).
  pose proof (Z.div_mod num den ltac:(lia)) as Hdm.
  pose proof (Z.mod_pos_bound num den Hden) as Hr.
  set (q := num / den) in *. set (r := num mod den) in *.
  destruct (Z.compare_spec (2 * r) den) as [Heq|Hlt|Hgt].
  - destruct (Z.even q); nia.
  - nia.
  - nia.
Qed.

(** Reading the rendering of a finite float gives back its sign and its
    micro-units. *)
Lemma read_format_6f (s : bool) (m : positive) (e : Z) :
  read_6f (Float64.format_6f (S754_finite s m e)) = Some (s, Float64.micro_units m e).
Proof.
  cbn [Float64.format_6f]. unfold Float64.int_digits, Float64.frac_digits.
  pose proof (micro_units_nonneg m e) as Hq.
  set (q := Float64.micro_units m e) in *.
  assert (Hw : 0 <= q / 1000000) by (apply Z.div_pos; lia).
  destruct (of_Z_numeral (q / 1000000) Hw) as (Hn & Hd & Hne).
  set (whole := of_Z (q / 1000000)) in *.
  set (frac := digits 6 (q mod 1000000)).
  unfold read_6f.
  rewrite (unsigned_sign s whole Hd Hne).
  change ("." ++ frac) with (String "." frac).
  rewrite split_whole_frac.
  2:{ now apply all_digits_free. }
  2:{ apply all_digits_free; [reflexivity|apply PyStrFacts.all_digits_digits]. }
  rewrite Hd. unfold frac at 1 2.
  rewrite PyStrFacts.all_digits_digits, PyStrFacts.length_digits.
  destruct (String.eqb whole EmptyString) eqn:E.
  { apply String.eqb_eq in E. now elim Hne. }
  cbn [negb andb Nat.eqb]. rewrite Hn. unfold numeral, frac.
  rewrite numeral_acc_digits.
  change (10 ^ Z.of_nat 6) with 1000000.
  rewrite Z.mod_mod by lia.
  pose proof (Z.div_mod q 1000000 ltac:(lia)). do 2 f_equal. lia.
Qed.

End ReadingFacts.

(** ** The handler on the scenarios of the specification *)

Module Examples.
Import Scenario.

(** A client connects and the lookup succeeds: header, IP, country, city and
    ISP, in this order. *)
Example connected_with_info :
  sent_texts (effects (on_message python quiet (online geo_testland)
                         {| topic := "OpenwebRX/CLIENT";
                            payload := doc_client "Connected" "::ffff:10.0.0.5" |}))
  = ["👤 Cliente Conectado" ++ PyStr.nl
     ++ "🌐 IP: 10.0.0.5" ++ PyStr.nl
     ++ "🏳️ País: Testland" ++ PyStr.nl
     ++ "🏢 Ciudad: Test City" ++ PyStr.nl
     ++ "📡 ISP: TestISP"].
Proof. reflexivity. Qed.

(** Telemetry: the frequency in MHz, the other keys as received. *)
Example telemetry_two_keys :
  sent_texts (effects (on_message python quiet (online geo_fail)
                         {| topic := "OpenwebRX/RX"; payload := doc_telemetry |}))
  = ["freq: 433.920000 MHz" ++ PyStr.nl ++ "mode: FM"].
Proof. reflexivity. Qed.

(** A failed delivery does not disturb the next message. *)
Example delivery_fails_then_next_message :
  outcome (on_message python quiet offline
             {| topic := "OpenwebRX/RX"; payload := doc_telemetry |}) = Ok tt
  /\ sent_texts (effects (on_message python quiet (online geo_fail)
                            {| topic := "OpenwebRX/RX"; payload := doc_freq_145 |}))
     = ["freq: 145.000000 MHz"].
Proof. split; reflexivity. Qed.

(** Bytes that are not UTF-8 are dropped at the handler boundary. *)
Example undecodable_bytes :
  on_message python quiet (online geo_fail)
    {| topic := "OpenwebRX/RX"; payload := String (ascii_of_nat 200) EmptyString |}
  = (Spec.boundary_records UnicodeDecodeError, Ok tt).
Proof. reflexivity. Qed.

(** Rounding of the fixed-point format: exact ties go to the even digit. *)
Example format_6f_ties :
  Float64.format_6f (Float64.div (Float64.of_Z 1) (Float64.of_Z 128)) = "0.007812"
  /\ Float64.format_6f (Float64.div (Float64.of_Z 3) (Float64.of_Z 128)) = "0.023438"
  /\ Float64.format_6f (Spec.mhz (Float64.of_Z (-7))) = "-0.000007".
Proof. repeat split. Qed.

(** The decision table on the scenarios: two entries and two drops. *)
Example table_entries :
  Table.expected python offline
    {| topic := "OpenwebRX/CLIENT"; payload := doc_client "Disconnected" "::ffff:10.0.0.5" |}
  = Some ("👤 Cliente Desconectado" ++ PyStr.nl ++ "🌐 IP: 10.0.0.5")
  /\ Table.expected python offline
       {| topic := "OpenwebRX/CLIENT"; payload := doc_client "Connected" "::ffff:10.0.0.5" |}
     = Some ("👤 Cliente Conectado" ++ PyStr.nl
             ++ "🌐 IP: 10.0.0.5" ++ PyStr.nl
             ++ "No se pudo obtener información adicional de la IP")
  /\ Table.expected python offline
       {| topic := "OpenwebRX/CLIENT"; payload := doc_client "Idle" "192.0.2.1" |}
     = None
  /\ Table.expected python offline
       {| topic := "OpenwebRX/RX"; payload := doc_freq_null |}
     = None.
Proof. repeat split. Qed.

(** The [Bot] cannot be built: the text is handed to the sender, which never
    awaits the client, and the callback returns. *)
Example bot_not_built :
  let run := on_message python quiet Delivery.no_bot
               {| topic := "OpenwebRX/RX"; payload := doc_freq_145 |} in
  sent_texts (effects run) = ["freq: 145.000000 MHz"]
  /\ client_calls (effects run) = []
  /\ outcome run = Ok tt.
Proof. repeat split. Qed.

(** Reading a rendered frequency back. *)
Example reading_a_frequency :
  Reading.read_6f "433.920000" = Some (false, 433920000)
  /\ Reading.read_6f "-0.000007" = Some (true, 7)
  /\ Reading.read_6f "inf" = None
  /\ Reading.read_6f "1.5" = None.
Proof. repeat split. Qed.

End Examples.

(** ** The claims *)

(** C1.  On the client-presence topic, a payload that decodes to an object
    whose mode is not the client mode is rendered in the raw form: the topic
    is not the telemetry topic, so the per-key rendering that the same branch
    holds for the telemetry topic is never selected, and the text formed, and
    sent, is the topic line followed by the message line. *)
Theorem presence_other_mode_is_raw
  (rt : PyRuntime) (cfg : Config) (w : World) (m : MQTTMessage)
  (raw : string) (d : list (string * pyval)) :
  topic m = Spec.client_topic ->
  payload_decode (payload m) = Ok raw ->
  json_loads rt raw = Ok (PDict d) ->
  Spec.field_is_not d "mode" "CLIENT" ->
  topic m <> Spec.telemetry_topic
  /\ outcome (format_payload rt w (topic m) raw)
     = Ok (Some ("Topic: " ++ topic m ++ PyStr.nl ++ "Message: " ++ raw))
  /\ sent_texts (effects (on_message rt cfg w m))
     = ["Topic: " ++ topic m ++ PyStr.nl ++ "Message: " ++ raw].
Proof.
  intros Ht Hd Hl Hm.
  assert (Hf : outcome (format_payload rt w (topic m) raw)
               = Ok (Some ("Topic: " ++ topic m ++ PyStr.nl ++ "Message: " ++ raw))).
  { rewrite Ht. unfold format_payload, Spec.client_topic. rewrite Hl. cbn.
    unfold Spec.field_is_not in Hm.
    destruct (lookup "mode" d) as [v|]; cbn; [rewrite Hm|]; reflexivity. }
  split; [rewrite Ht; discriminate|].
  split; [exact Hf|].
  now apply on_message_delivers with (raw := raw).
Qed.

Lemma presence_other_mode_is_raw_witness :
  let m := {| topic := "OpenwebRX/CLIENT"; payload := Scenario.doc_server_disconnected |} in
  topic m <> Spec.telemetry_topic
  /\ outcome (format_payload Scenario.python Scenario.offline (topic m)
                Scenario.doc_server_disconnected)
     = Ok (Some ("Topic: " ++ topic m ++ PyStr.nl ++ "Message: "
                 ++ Scenario.doc_server_disconnected))
  /\ sent_texts (effects (on_message Scenario.python Scenario.verbose Scenario.offline m))
     = ["Topic: " ++ topic m ++ PyStr.nl ++ "Message: " ++ Scenario.doc_server_disconnected].
Proof.
  intros m.
  apply (presence_other_mode_is_raw Scenario.python Scenario.verbose Scenario.offline m
           Scenario.doc_server_disconnected
           [("mode", PStr "SERVER"); ("state", PStr "Disconnected");
            ("ip", PStr "::ffff:10.0.0.5")]);
    reflexivity.
Defined.

(** C2, as stated, fails: a presence payload whose state is Disconnected but
    whose mode is not the client mode is rendered in the raw form, not as a
    disconnection notice. *)
Lemma disconnected_without_client_mode :
  json_loads Scenario.python Scenario.doc_server_disconnected
  = Ok (PDict [("mode", PStr "SERVER"); ("state", PStr "Disconnected");
               ("ip", PStr "::ffff:10.0.0.5")])
  /\ outcome (format_payload Scenario.python Scenario.offline "OpenwebRX/CLIENT"
                Scenario.doc_server_disconnected)
     = Ok (Some (raw_text "OpenwebRX/CLIENT" Scenario.doc_server_disconnected))
  /\ outcome (format_payload Scenario.python Scenario.offline "OpenwebRX/CLIENT"
                Scenario.doc_server_disconnected)
     <> Ok (Some (disconnected_text Scenario.python (PStr "10.0.0.5"))).
Proof.
  split; [reflexivity|]. split; [reflexivity|].
  vm_compute. discriminate.
Qed.

(** C2, amended.  On the client-presence topic, a payload that decodes to an
    object whose mode is the client mode, whose state is Disconnected and
    whose IP is a string (or is missing, and read as the empty string) is
    rendered as the disconnection header and an IP line, and the IP of that
    line is normalized by the rule that the Connected branch uses: the text
    for the same IP in state Connected starts with the connection header and
    the same IP line. *)
Theorem client_disconnected_text
  (rt : PyRuntime) (w : World) (raw : string) (d : list (string * pyval)) (ip : string) :
  json_loads rt raw = Ok (PDict d) ->
  Spec.field_is d "mode" "CLIENT" ->
  Spec.field_is d "state" "Disconnected" ->
  Spec.ip_field d ip ->
  outcome (format_payload rt w Spec.client_topic raw)
  = Ok (Some ("👤 Cliente Desconectado" ++ PyStr.nl ++ "🌐 IP: " ++ Spec.normalized_ip ip))
  /\ forall raw' d',
       json_loads rt raw' = Ok (PDict d') ->
       Spec.field_is d' "mode" "CLIENT" ->
       Spec.field_is d' "state" "Connected" ->
       Spec.ip_field d' ip ->
       exists rest,
         outcome (format_payload rt w Spec.client_topic raw')
         = Ok (Some ("👤 Cliente Conectado" ++ PyStr.nl ++ "🌐 IP: "
                     ++ Spec.normalized_ip ip ++ rest)).
Proof.
  intros Hl Hmode Hstate Hip. split.
  - unfold format_payload, Spec.client_topic. rewrite Hl.
    pose proof (ip_field_normalized d ip Hip) as Hnorm.
    unfold Spec.field_is in *. cbn.
    rewrite Hmode. cbn. rewrite Hnorm. cbn. rewrite Hstate. reflexivity.
  - intros raw' d' Hl' Hmode' Hstate' Hip'.
    unfold format_payload, Spec.client_topic. rewrite Hl'.
    pose proof (ip_field_normalized d' ip Hip') as Hnorm.
    unfold Spec.field_is in *. cbn.
    rewrite Hmode'. cbn. rewrite Hnorm. cbn. rewrite Hstate'. cbn.
    unfold process_ip_info.
    destruct (get_ip_info_cases rt w (PStr (Spec.normalized_ip ip)))
      as [[t Hg]|(g & _ & _ & Hg)]; rewrite Hg; cbn.
    + eexists. unfold connected_no_info. cbn. reflexivity.
    + destruct g as [|kv g]; cbn.
      * eexists. unfold connected_no_info. cbn. reflexivity.
      * eexists. unfold connected_info. cbn. reflexivity.
Qed.

Lemma client_disconnected_text_witness :
  outcome (format_payload Scenario.python (Scenario.online Scenario.geo_testland)
             Spec.client_topic (Scenario.doc_client "Disconnected" "::ffff:10.0.0.5"))
  = Ok (Some ("👤 Cliente Desconectado" ++ PyStr.nl ++ "🌐 IP: "
              ++ Spec.normalized_ip "::ffff:10.0.0.5"))
  /\ forall raw' d',
       json_loads Scenario.python raw' = Ok (PDict d') ->
       Spec.field_is d' "mode" "CLIENT" ->
       Spec.field_is d' "state" "Connected" ->
       Spec.ip_field d' "::ffff:10.0.0.5" ->
       exists rest,
         outcome (format_payload Scenario.python (Scenario.online Scenario.geo_testland)
                    Spec.client_topic raw')
         = Ok (Some ("👤 Cliente Conectado" ++ PyStr.nl ++ "🌐 IP: "
                     ++ Spec.normalized_ip "::ffff:10.0.0.5" ++ rest)).
Proof.
  apply (client_disconnected_text Scenario.python (Scenario.online Scenario.geo_testland)
           (Scenario.doc_client "Disconnected" "::ffff:10.0.0.5")
           [("mode", PStr "CLIENT"); ("state", PStr "Disconnected");
            ("ip", PStr "::ffff:10.0.0.5")] "::ffff:10.0.0.5");
    reflexivity.
Defined.

(** C3, as stated, fails: a telemetry payload whose frequency is null cannot
    be divided, and the message is dropped with no text at all; a frequency
    beyond the range of a float is rendered with no decimal places. *)
Lemma telemetry_freq_not_a_number :
  json_loads Scenario.python Scenario.doc_freq_null = Ok (PDict [("freq", PNone)])
  /\ outcome (format_payload Scenario.python Scenario.offline "OpenwebRX/RX"
                Scenario.doc_freq_null) = Raise TypeError
  /\ sent_texts (effects (on_message Scenario.python Scenario.quiet
                            (Scenario.online Scenario.geo_fail)
                            {| topic := "OpenwebRX/RX"; payload := Scenario.doc_freq_null |}))
     = []
  /\ json_loads Scenario.python Scenario.doc_freq_huge
     = Ok (PDict [("freq", PFloat (S754_infinity false))])
  /\ outcome (format_payload Scenario.python Scenario.offline "OpenwebRX/RX"
                Scenario.doc_freq_huge) = Ok (Some "freq: inf MHz").
Proof. repeat split. Qed.

(** C3, amended.  A telemetry payload that decodes to an object in which the
    value of the key freq, if present, converts to a float (a number, a
    boolean or a numeric string) is rendered with one line per key in
    received order: [key: value] for every key but freq, and for freq the
    value divided by 1,000,000 in fixed-point notation followed by MHz, with
    exactly six decimal places whenever the quotient is finite; the frequency
    145000000 gives the line freq: 145.000000 MHz. *)
Theorem telemetry_lines
  (rt : PyRuntime) (w : World) (raw : string) (d : list (string * pyval)) :
  json_loads rt raw = Ok (PDict d) ->
  Spec.freq_converts rt d = true ->
  (exists parts,
     outcome (format_payload rt w Spec.telemetry_topic raw)
     = Ok (Some (PyStr.join PyStr.nl parts))
     /\ Forall2 (Spec.telemetry_line rt) d parts)
  /\ rx_part rt ("freq", PInt 145000000) = Ok "freq: 145.000000 MHz".
Proof.
  intros Hl Hc. split; [|reflexivity].
  destruct (rx_parts_lines rt d Hc) as (parts & Hparts & Hall).
  exists parts. split; [|exact Hall].
  unfold format_payload, Spec.telemetry_topic. rewrite Hl. cbn.
  rewrite Hparts. reflexivity.
Qed.

Lemma telemetry_lines_witness :
  (exists parts,
     outcome (format_payload Scenario.python Scenario.offline Spec.telemetry_topic
                Scenario.doc_telemetry)
     = Ok (Some (PyStr.join PyStr.nl parts))
     /\ Forall2 (Spec.telemetry_line Scenario.python)
          [("freq", PInt 433920000); ("mode", PStr "FM")] parts)
  /\ rx_part Scenario.python ("freq", PInt 145000000) = Ok "freq: 145.000000 MHz".
Proof.
  apply (telemetry_lines Scenario.python Scenario.offline Scenario.doc_telemetry
           [("freq", PInt 433920000); ("mode", PStr "FM")]);
    reflexivity.
Defined.




(** C5.  The IP normalization of line 114 is the rule of the specification:
    a raw string that contains the IPv4-mapped prefix is replaced by its
    substring after the last colon (the raw string is some prefix, a colon
    and the result, and the result has no colon); any other raw string is
    kept; the mapped address of 10.0.0.5 becomes 10.0.0.5. *)
Theorem normalize_ip_rule (raw : string) :
  normalize_ip (PStr raw) = Ok (PStr (Spec.normalized_ip raw))
  /\ (PyStr.contains "::ffff:" raw = true ->
      PyStr.free_of ":" (Spec.normalized_ip raw) = true
      /\ exists p, raw = p ++ ":" ++ Spec.normalized_ip raw)
  /\ (PyStr.contains "::ffff:" raw = false -> Spec.normalized_ip raw = raw)
  /\ normalize_ip (PStr "::ffff:10.0.0.5") = Ok (PStr "10.0.0.5").
Proof.
  split; [apply PyStrFacts.normalize_ip_text|].
  unfold Spec.normalized_ip.
  split; [intros H; rewrite H; split|split].
  - apply PyStrFacts.after_last_is_free.
  - apply PyStrFacts.after_last_suffix.
    now apply PyStrFacts.contains_not_free in H.
  - intros H. now rewrite H.
  - reflexivity.
Qed.

(** C6.  The geolocation lookup never raises: it ends normally for every
    argument, and every failure (the request or the decoding of the body
    raises, the body carries no success status) is returned as None.  For a
    Connected client payload such a result gives the connection header, the
    IP line and the line that says no additional information is available. *)
Theorem lookup_failure_is_no_information
  (rt : PyRuntime) (w : World) (raw : string) (d : list (string * pyval)) (ip : string) :
  json_loads rt raw = Ok (PDict d) ->
  Spec.field_is d "mode" "CLIENT" ->
  Spec.field_is d "state" "Connected" ->
  Spec.ip_field d ip ->
  Spec.lookup_failed w (Spec.lookup_url (Spec.normalized_ip ip)) ->
  (forall ip0, exists v, outcome (get_ip_info rt w ip0) = Ok v)
  /\ (forall ip0, Spec.lookup_failed w (Spec.lookup_url (py_str rt ip0)) ->
                  outcome (get_ip_info rt w ip0) = Ok PNone)
  /\ outcome (format_payload rt w Spec.client_topic raw)
     = Ok (Some ("👤 Cliente Conectado" ++ PyStr.nl
                 ++ "🌐 IP: " ++ Spec.normalized_ip ip ++ PyStr.nl
                 ++ "No se pudo obtener información adicional de la IP")).
Proof.
  intros Hl Hmode Hstate Hip Hfail.
  split; [|split].
  - intros ip0.
    destruct (get_ip_info_cases rt w ip0) as [[t Hg]|(g & _ & _ & Hg)];
      rewrite Hg; eexists; reflexivity.
  - intros ip0. apply get_ip_info_failed.
  - pose proof (get_ip_info_failed rt w (PStr (Spec.normalized_ip ip)) Hfail) as Hnone.
    unfold format_payload, Spec.client_topic. rewrite Hl.
    pose proof (ip_field_normalized d ip Hip) as Hnorm.
    unfold Spec.field_is in *. cbn.
    rewrite Hmode. cbn. rewrite Hnorm. cbn. rewrite Hstate. cbn.
    unfold process_ip_info.
    destruct (get_ip_info rt w (PStr (Spec.normalized_ip ip))) as [t r].
    cbn in Hnone. subst r. reflexivity.
Qed.

Lemma lookup_failure_is_no_information_witness :
  (forall ip0, exists v, outcome (get_ip_info Scenario.python Scenario.offline ip0) = Ok v)
  /\ (forall ip0,
        Spec.lookup_failed Scenario.offline (Spec.lookup_url (py_str Scenario.python ip0)) ->
        outcome (get_ip_info Scenario.python Scenario.offline ip0) = Ok PNone)
  /\ outcome (format_payload Scenario.python Scenario.offline Spec.client_topic
                (Scenario.doc_client "Connected" "::ffff:10.0.0.5"))
     = Ok (Some ("👤 Cliente Conectado" ++ PyStr.nl
                 ++ "🌐 IP: " ++ Spec.normalized_ip "::ffff:10.0.0.5" ++ PyStr.nl
                 ++ "No se pudo obtener información adicional de la IP")).
Proof.
  apply (lookup_failure_is_no_information Scenario.python Scenario.offline
           (Scenario.doc_client "Connected" "::ffff:10.0.0.5")
           [("mode", PStr "CLIENT"); ("state", PStr "Connected");
            ("ip", PStr "::ffff:10.0.0.5")] "::ffff:10.0.0.5");
    [reflexivity | reflexivity | reflexivity | reflexivity | exact I].
Defined.

(** C7.  A delivery that fails, whatever the exception and whether it is
    raised while the [Bot] is built (lines 80-81) or by the awaited call of
    line 86, is caught inside the sender, which returns normally.  The client
    is awaited once with the text when the [Bot] was built and not at all
    otherwise, and never a second time; the sender then writes the error, a
    record that shows no more of the token than its first ten characters, and
    the traceback; and the callback that invoked it returns normally as
    well. *)
Theorem delivery_failure_is_contained
  (cfg : Config) (w : World) (text : string) (e : exn) :
  Delivery.fails cfg w text e ->
  outcome (send_telegram_message cfg w text) = Ok tt
  /\ effects (send_telegram_message cfg w text)
     = (Spec.telegram_debug_records cfg text
        ++ Delivery.attempts cfg w text
        ++ Spec.delivery_failure_records cfg e)%list
  /\ client_calls (effects (send_telegram_message cfg w text))
     = match bot_create w (TELEGRAM_TOKEN cfg) with
       | Ok _ => [text]
       | Raise _ => []
       end
  /\ (String.length (PyStr.take 10 (TELEGRAM_TOKEN cfg)) <= 10)%nat
  /\ prefix (PyStr.take 10 (TELEGRAM_TOKEN cfg)) (TELEGRAM_TOKEN cfg) = true
  /\ forall rt m, outcome (on_message rt cfg w m) = Ok tt.
Proof.
  intros H.
  split; [apply send_returns|].
  split.
  { rewrite send_cases. cbn [effects fst].
    unfold Delivery.fails, Delivery.attempts in *.
    destruct (bot_create w (TELEGRAM_TOKEN cfg)) as [[]|e0].
    - now rewrite H.
    - now subst e0. }
  split; [apply send_calls|].
  split; [apply PyStrFacts.length_take|].
  split; [apply PyStrFacts.take_is_prefix|].
  intros rt m. apply on_message_returns.
Qed.

Lemma delivery_failure_is_contained_witness :
  (Delivery.fails Scenario.verbose Delivery.no_bot "freq: 145.000000 MHz"
     (OtherError "InvalidToken")
   /\ effects (send_telegram_message Scenario.verbose Delivery.no_bot "freq: 145.000000 MHz")
      = (Spec.telegram_debug_records Scenario.verbose "freq: 145.000000 MHz"
         ++ Spec.delivery_failure_records Scenario.verbose (OtherError "InvalidToken"))%list
   /\ client_calls
        (effects (send_telegram_message Scenario.verbose Delivery.no_bot
                    "freq: 145.000000 MHz"))
      = [])
  /\ (Delivery.fails Scenario.verbose Scenario.offline "freq: 145.000000 MHz"
        (OtherError "NetworkError")
      /\ effects (send_telegram_message Scenario.verbose Scenario.offline
                    "freq: 145.000000 MHz")
         = (Spec.telegram_debug_records Scenario.verbose "freq: 145.000000 MHz"
            ++ Call (CHAT_ID Scenario.verbose) "freq: 145.000000 MHz"
               :: Spec.delivery_failure_records Scenario.verbose
                    (OtherError "NetworkError"))%list
      /\ client_calls
           (effects (send_telegram_message Scenario.verbose Scenario.offline
                       "freq: 145.000000 MHz"))
         = ["freq: 145.000000 MHz"]).
Proof.
  split.
  - assert (H : Delivery.fails Scenario.verbose Delivery.no_bot "freq: 145.000000 MHz"
                  (OtherError "InvalidToken")) by reflexivity.
    split; [exact H|].
    destruct (delivery_failure_is_contained Scenario.verbose Delivery.no_bot
                "freq: 145.000000 MHz" (OtherError "InvalidToken") H)
      as (_ & He & Hc & _).
    split; [exact He|exact Hc].
  - assert (H : Delivery.fails Scenario.verbose Scenario.offline "freq: 145.000000 MHz"
                  (OtherError "NetworkError")) by reflexivity.
    split; [exact H|].
    destruct (delivery_failure_is_contained Scenario.verbose Scenario.offline
                "freq: 145.000000 MHz" (OtherError "NetworkError") H)
      as (_ & He & Hc & _).
    split; [exact He|exact Hc].
Defined.

(** C8.  For every message the callback returns normally, so no exception
    leaves it.  Which messages produce a text is fixed by the decision table
    [Table.expected], read off the topic and the shape of the payload: for a
    message with an entry the callback hands over exactly that text, once,
    and the sender awaits the client with it once when the [Bot] is built;
    for a message without an entry nothing is handed over, the client is not
    awaited, and the event is dropped at the handler boundary, which records
    the exception. *)
Theorem one_text_or_drop
  (rt : PyRuntime) (cfg : Config) (w : World) (m : MQTTMessage) :
  outcome (on_message rt cfg w m) = Ok tt
  /\ match Table.expected rt w m with
     | Some text =>
         sent_texts (effects (on_message rt cfg w m)) = [text]
         /\ client_calls (effects (on_message rt cfg w m))
            = match bot_create w (TELEGRAM_TOKEN cfg) with
              | Ok _ => [text]
              | Raise _ => []
              end
     | None =>
         sent_texts (effects (on_message rt cfg w m)) = []
         /\ client_calls (effects (on_message rt cfg w m)) = []
         /\ exists e before,
              effects (on_message rt cfg w m)
              = (before ++ Spec.boundary_records e)%list
     end.
Proof.
  split; [apply on_message_returns|].
  destruct (on_message_table rt cfg w m) as [Hs Hc].
  pose proof (outbound_text_table rt w m) as Ht.
  destruct (Table.expected rt w m) as [text|].
  - split; [exact Hs|exact Hc].
  - split; [exact Hs|]. split; [exact Hc|].
    destruct (on_message_dropped rt cfg w m Ht) as (e & before & He & _).
    now exists e, before.
Qed.

(** C9.  The outbound text is a function of the topic, the payload and the
    result of the geolocation lookup: two runs of the formatting on the same
    message, under any two configurations and in any two worlds whose lookups
    return the same result, bind the same text, and the two callbacks hand
    the same text to the client. *)
Theorem formatting_is_deterministic
  (rt : PyRuntime) (cfg1 cfg2 : Config) (w1 w2 : World) (m : MQTTMessage) :
  (forall ip, outcome (get_ip_info rt w1 ip) = outcome (get_ip_info rt w2 ip)) ->
  (forall raw, outcome (format_payload rt w1 (topic m) raw)
               = outcome (format_payload rt w2 (topic m) raw))
  /\ Spec.outbound_text rt w1 m = Spec.outbound_text rt w2 m
  /\ sent_texts (effects (on_message rt cfg1 w1 m))
     = sent_texts (effects (on_message rt cfg2 w2 m)).
Proof.
  intros Hgeo.
  assert (Hp : forall ip, outcome (process_ip_info rt w1 ip)
                          = outcome (process_ip_info rt w2 ip)).
  { intros ip. unfold process_ip_info.
    rewrite ?Silent.outcome_bind, Hgeo. reflexivity. }
  assert (Hf : forall tp raw, outcome (format_payload rt w1 tp raw)
                              = outcome (format_payload rt w2 tp raw)).
  { intros tp raw. unfold format_payload.
    rewrite ?Silent.outcome_try, ?Silent.outcome_bind.
    destruct (outcome (lift (json_loads rt raw))) as [p|e]; [|reflexivity].
    destruct (String.eqb tp "OpenwebRX/CLIENT"); [|reflexivity].
    rewrite ?Silent.outcome_bind.
    destruct (outcome (lift (py_get p "mode" PNone))) as [mode|e]; [|reflexivity].
    destruct (py_eq_str mode "CLIENT"); [|reflexivity].
    rewrite ?Silent.outcome_bind.
    destruct (outcome (lift (py_get p "ip" (PStr EmptyString)))) as [raw_ip|e];
      [|reflexivity].
    rewrite ?Silent.outcome_bind.
    destruct (outcome (lift (normalize_ip raw_ip))) as [ip|e]; [|reflexivity].
    rewrite ?Silent.outcome_bind.
    destruct (outcome (lift (py_get p "state" PNone))) as [state|e]; [|reflexivity].
    destruct (py_eq_str state "Connected"); [|reflexivity].
    rewrite ?Silent.outcome_bind. cbn [outcome emit snd].
    rewrite ?Silent.outcome_bind, Hp. reflexivity. }
  assert (Ho : Spec.outbound_text rt w1 m = Spec.outbound_text rt w2 m).
  { unfold Spec.outbound_text.
    destruct (payload_decode (payload m)); [|reflexivity]. now rewrite Hf. }
  split; [intros raw; apply Hf|]. split; [exact Ho|].
  now rewrite !on_message_sent, Ho.
Qed.

Lemma formatting_is_deterministic_witness :
  let m := {| topic := "OpenwebRX/CLIENT";
              payload := Scenario.doc_client "Connected" "::ffff:10.0.0.5" |} in
  (forall raw,
     outcome (format_payload Scenario.python Scenario.offline (topic m) raw)
     = outcome (format_payload Scenario.python (Scenario.online Scenario.geo_fail)
                  (topic m) raw))
  /\ Spec.outbound_text Scenario.python Scenario.offline m
     = Spec.outbound_text Scenario.python (Scenario.online Scenario.geo_fail) m
  /\ sent_texts (effects (on_message Scenario.python Scenario.verbose Scenario.offline m))
     = sent_texts (effects (on_message Scenario.python Scenario.quiet
                              (Scenario.online Scenario.geo_fail) m)).
Proof.
  intros m.
  apply (formatting_is_deterministic Scenario.python Scenario.verbose Scenario.quiet
           Scenario.offline (Scenario.online Scenario.geo_fail) m).
  intros ip. reflexivity.
Defined.

(** C10.  A client-presence payload in the client mode whose state is
    neither Connected nor Disconnected sends nothing: the formatting binds no
    text, the exception that follows is caught at the handler boundary, which
    records it, and the callback returns normally; when the IP is a string or
    is missing, that exception is the unbound [message_text]. *)
Theorem client_unknown_state_is_dropped
  (rt : PyRuntime) (cfg : Config) (w : World) (m : MQTTMessage)
  (raw : string) (d : list (string * pyval)) :
  topic m = Spec.client_topic ->
  payload_decode (payload m) = Ok raw ->
  json_loads rt raw = Ok (PDict d) ->
  Spec.field_is d "mode" "CLIENT" ->
  Spec.field_is_not d "state" "Connected" ->
  Spec.field_is_not d "state" "Disconnected" ->
  sent_texts (effects (on_message rt cfg w m)) = []
  /\ outcome (on_message rt cfg w m) = Ok tt
  /\ (forall text, outcome (format_payload rt w (topic m) raw) <> Ok (Some text))
  /\ (exists e,
        effects (on_message rt cfg w m)
        = (Spec.mqtt_debug_records cfg (topic m) raw ++ Spec.boundary_records e)%list)
  /\ (forall ip,
        Spec.ip_field d ip ->
        format_payload rt w (topic m) raw = ([], Ok None)
        /\ effects (on_message rt cfg w m)
           = (Spec.mqtt_debug_records cfg (topic m) raw
              ++ Spec.boundary_records (UnboundLocalError "message_text"))%list).
Proof.
  intros Ht Hdec Hl Hmode Hc Hd.
  pose proof (format_payload_unknown_state rt w raw d Hl Hmode Hc Hd) as Hf.
  rewrite <- Ht in Hf.
  pose proof (on_message_cases rt cfg w m) as Hcases.
  rewrite Hdec, Hf in Hcases. cbv zeta in Hcases.
  unfold outcome, effects in Hcases. cbn [fst snd app] in Hcases.
  rewrite Hcases, Hf.
  assert (Hdbg : forall e,
             sent_texts (Spec.mqtt_debug_records cfg (topic m) raw
                         ++ Spec.boundary_records e)%list = []).
  { intros e. unfold Spec.mqtt_debug_records.
    now destruct (String.eqb (MQTT_DEBUG cfg) "YES"). }
  destruct (normalize_ip _) as [ip0|e] eqn:Hn; cbn [fst snd effects outcome].
  - split; [apply Hdbg|]. split; [reflexivity|]. split; [discriminate|].
    split; [now exists (UnboundLocalError "message_text")|].
    intros ip Hip. split; reflexivity.
  - split; [apply Hdbg|]. split; [reflexivity|]. split; [discriminate|].
    split; [now exists e|].
    intros ip Hip. pose proof (ip_field_normalized d ip Hip) as Hnorm. congruence.
Qed.

Lemma client_unknown_state_is_dropped_witness :
  let m := {| topic := "OpenwebRX/CLIENT"; payload := Scenario.doc_client "Idle" "192.0.2.1" |} in
  let w := Scenario.online Scenario.geo_testland in
  let raw := Scenario.doc_client "Idle" "192.0.2.1" in
  sent_texts (effects (on_message Scenario.python Scenario.verbose w m)) = []
  /\ outcome (on_message Scenario.python Scenario.verbose w m) = Ok tt
  /\ (forall text, outcome (format_payload Scenario.python w (topic m) raw) <> Ok (Some text))
  /\ (exists e,
        effects (on_message Scenario.python Scenario.verbose w m)
        = (Spec.mqtt_debug_records Scenario.verbose (topic m) raw
           ++ Spec.boundary_records e)%list)
  /\ (forall ip,
        Spec.ip_field [("mode", PStr "CLIENT"); ("state", PStr "Idle");
                       ("ip", PStr "192.0.2.1")] ip ->
        format_payload Scenario.python w (topic m) raw = ([], Ok None)
        /\ effects (on_message Scenario.python Scenario.verbose w m)
           = (Spec.mqtt_debug_records Scenario.verbose (topic m) raw
              ++ Spec.boundary_records (UnboundLocalError "message_text"))%list).
Proof.
  intros m w raw.
  apply (client_unknown_state_is_dropped Scenario.python Scenario.verbose w m raw
           [("mode", PStr "CLIENT"); ("state", PStr "Idle"); ("ip", PStr "192.0.2.1")]);
    reflexivity.
Defined.

(** ** Further properties of the handler *)


(** X1.  Normalizing an IP twice gives what normalizing it once gives: the
    result of line 114 has no mapped prefix left. *)
Theorem normalize_ip_idempotent (v v' : pyval) :
  normalize_ip v = Ok v' -> normalize_ip v' = Ok v'.
Proof.
  unfold normalize_ip. destruct v; cbn; try discriminate.
  - destruct (PyStr.contains "::ffff:" s) eqn:C; intros [= <-]; cbn.
    + rewrite PyStrFacts.last_split.
      rewrite EdgeFacts.free_not_contains by apply PyStrFacts.after_last_is_free.
      reflexivity.
    + now rewrite C.
  - destruct (existsb _ l) eqn:E; [discriminate|]. intros [= <-]. cbn. now rewrite E.
  - destruct (lookup "::ffff:" d) eqn:E; [discriminate|]. intros [= <-]. cbn. now rewrite E.
Qed.

Lemma normalize_ip_idempotent_witness :
  normalize_ip (PStr "10.0.0.5") = Ok (PStr "10.0.0.5").
Proof.
  apply (normalize_ip_idempotent (PStr "::ffff:10.0.0.5") (PStr "10.0.0.5")).
  reflexivity.
Defined.

(** X2.  A client-mode presence payload whose IP is null, a boolean or a
    number is dropped whatever its state: the prefix test of line 114 raises
    a type error, no record is written by the formatting, nothing is sent,
    and the boundary records the error. *)
Theorem client_ip_not_text_is_dropped
  (rt : PyRuntime) (cfg : Config) (w : World) (m : MQTTMessage)
  (raw : string) (d : list (string * pyval)) (v : pyval) :
  topic m = Spec.client_topic ->
  payload_decode (payload m) = Ok raw ->
  json_loads rt raw = Ok (PDict d) ->
  Spec.field_is d "mode" "CLIENT" ->
  lookup "ip" d = Some v ->
  Edge.not_iterable v = true ->
  format_payload rt w (topic m) raw = ([], Raise TypeError)
  /\ sent_texts (effects (on_message rt cfg w m)) = []
  /\ effects (on_message rt cfg w m)
     = (Spec.mqtt_debug_records cfg (topic m) raw ++ Spec.boundary_records TypeError)%list.
Proof.
  intros Ht Hdec Hl Hmode Hip Hv.
  assert (Hf : format_payload rt w (topic m) raw = ([], Raise TypeError)).
  { rewrite Ht. unfold format_payload, Spec.client_topic, Spec.field_is in *.
    rewrite Hl. cbn. rewrite Hmode. cbn. rewrite Hip.
    destruct v; try discriminate; reflexivity. }
  pose proof (on_message_cases rt cfg w m) as Hc.
  rewrite Hdec, Hf in Hc. cbn in Hc.
  split; [exact Hf|]. rewrite Hc. cbn [effects fst]. split; [|reflexivity].
  unfold Spec.mqtt_debug_records. now destruct (String.eqb (MQTT_DEBUG cfg) "YES").
Qed.

Lemma client_ip_not_text_is_dropped_witness :
  let m := {| topic := "OpenwebRX/CLIENT"; payload := EdgeScenario.doc_ip_number |} in
  format_payload EdgeScenario.python (Scenario.online Scenario.geo_testland) (topic m)
    EdgeScenario.doc_ip_number
  = ([], Raise TypeError)
  /\ sent_texts (effects (on_message EdgeScenario.python Scenario.quiet
                            (Scenario.online Scenario.geo_testland) m)) = []
  /\ effects (on_message EdgeScenario.python Scenario.quiet
                (Scenario.online Scenario.geo_testland) m)
     = (Spec.mqtt_debug_records Scenario.quiet (topic m) EdgeScenario.doc_ip_number
        ++ Spec.boundary_records TypeError)%list.
Proof.
  intros m.
  apply (client_ip_not_text_is_dropped EdgeScenario.python Scenario.quiet
           (Scenario.online Scenario.geo_testland) m EdgeScenario.doc_ip_number
           [("mode", PStr "CLIENT"); ("state", PStr "Connected"); ("ip", PInt 42)]
           (PInt 42));
    reflexivity.
Defined.

(** X3.  The lookup returns the decoded answer exactly when the service
    answered with an object whose status is the success text, and it writes
    no record exactly when nothing raised: an answer with another status is
    turned into None without an error record, an exception into None with
    one. *)
Theorem lookup_result_and_log (rt : PyRuntime) (w : World) (ip : pyval) :
  (forall d,
     outcome (get_ip_info rt w ip) = Ok (PDict d)
     <-> (http_get_json w (Spec.lookup_url (py_str rt ip)) = Ok (PDict d)
          /\ Spec.field_is d "status" "success"))
  /\ (effects (get_ip_info rt w ip) = []
      <-> exists data status,
            http_get_json w (Spec.lookup_url (py_str rt ip)) = Ok data
            /\ py_getitem data "status" = Ok status).
Proof.
  unfold get_ip_info, Spec.lookup_url, Spec.field_is.
  destruct (http_get_json w _) as [data|e]; cbn.
  2:{ split.
      - intros d. split; [discriminate|intros [H _]; discriminate].
      - split; [discriminate|intros (data & st & H & _); discriminate]. }
  destruct (py_getitem data "status") as [st|e] eqn:G; cbn.
  2:{ split.
      - intros d. split; [discriminate|].
        intros [[= ->] L]. cbn in G. rewrite L in G. discriminate.
      - split; [discriminate|intros (data' & st & [= <-] & H); congruence]. }
  destruct (py_eq_str st "success") eqn:E; cbn.
  - split.
    + intros d. split.
      * intros [= ->]. split; [reflexivity|].
        cbn in G. destruct (lookup "status" d); [|discriminate].
        injection G as ->. destruct st; try discriminate.
        cbn in E. apply String.eqb_eq in E. now subst.
      * now intros [[= ->] _].
    + split; [intros _; now exists data, st|reflexivity].
  - split.
    + intros d. split; [discriminate|].
      intros [[= ->] L]. cbn in G. rewrite L in G. injection G as <-.
      cbn in E. discriminate.
    + split; [intros _; now exists data, st|reflexivity].
Qed.

(** X4.  When the lookup succeeds the Connected text has five lines: the
    header, the normalized IP, and the country, city and ISP of the answer,
    each replaced by N/A when the answer has no such entry. *)
Theorem connected_text_with_info
  (rt : PyRuntime) (w : World) (raw : string)
  (d g : list (string * pyval)) (ip : string) :
  json_loads rt raw = Ok (PDict d) ->
  Spec.field_is d "mode" "CLIENT" ->
  Spec.field_is d "state" "Connected" ->
  Spec.ip_field d ip ->
  http_get_json w (Spec.lookup_url (Spec.normalized_ip ip)) = Ok (PDict g) ->
  Spec.field_is g "status" "success" ->
  format_payload rt w Spec.client_topic raw
  = ([Log INFO ("Client connected from IP: " ++ Spec.normalized_ip ip)],
     Ok (Some ("👤 Cliente Conectado" ++ PyStr.nl
               ++ "🌐 IP: " ++ Spec.normalized_ip ip ++ PyStr.nl
               ++ "🏳️ País: " ++ py_str rt (Edge.or_na g "country") ++ PyStr.nl
               ++ "🏢 Ciudad: " ++ py_str rt (Edge.or_na g "city") ++ PyStr.nl
               ++ "📡 ISP: " ++ py_str rt (Edge.or_na g "isp")))).
Proof.
  intros Hl Hmode Hstate Hip Hhttp Hok.
  assert (Hg : get_ip_info rt w (PStr (Spec.normalized_ip ip)) = ([], Ok (PDict g))).
  { unfold get_ip_info. cbv zeta. cbn [py_str].
    unfold Spec.lookup_url in Hhttp. rewrite Hhttp.
    unfold Spec.field_is in Hok. cbn. rewrite Hok. reflexivity. }
  unfold format_payload, Spec.client_topic. rewrite Hl.
  pose proof (ip_field_normalized d ip Hip) as Hnorm.
  unfold Spec.field_is in *. cbn.
  rewrite Hmode. cbn. rewrite Hnorm. cbn. rewrite Hstate. cbn.
  unfold process_ip_info. rewrite Hg. cbn.
  destruct g as [|kv g]; [discriminate|]. reflexivity.
Qed.

Lemma connected_text_with_info_witness :
  format_payload EdgeScenario.python (Scenario.online EdgeScenario.geo_no_city)
    Spec.client_topic (Scenario.doc_client "Connected" "192.0.2.1")
  = ([Log INFO ("Client connected from IP: " ++ Spec.normalized_ip "192.0.2.1")],
     Ok (Some ("👤 Cliente Conectado" ++ PyStr.nl
               ++ "🌐 IP: " ++ Spec.normalized_ip "192.0.2.1" ++ PyStr.nl
               ++ "🏳️ País: " ++ "Testland" ++ PyStr.nl
               ++ "🏢 Ciudad: " ++ "N/A" ++ PyStr.nl
               ++ "📡 ISP: " ++ "TestISP"))).
Proof.
  apply (connected_text_with_info EdgeScenario.python
           (Scenario.online EdgeScenario.geo_no_city)
           (Scenario.doc_client "Connected" "192.0.2.1")
           [("mode", PStr "CLIENT"); ("state", PStr "Connected"); ("ip", PStr "192.0.2.1")]
           [("status", PStr "success"); ("country", PStr "Testland"); ("isp", PStr "TestISP")]
           "192.0.2.1");
    reflexivity.
Defined.

(** X5.  On a topic other than the two special ones the decoded payload is
    never inspected: whatever JSON value it is, the text is the raw form and
    the only record is the info record with the topic. *)
Theorem other_topic_is_raw
  (rt : PyRuntime) (w : World) (tp raw : string) (v : pyval) :
  Edge.special_topic tp = false ->
  json_loads rt raw = Ok v ->
  format_payload rt w tp raw
  = ([Log INFO ("Message received on topic " ++ tp)],
     Ok (Some ("Topic: " ++ tp ++ PyStr.nl ++ "Message: " ++ raw))).
Proof.
  unfold Edge.special_topic. intros Ht Hl.
  apply orb_false_elim in Ht as [Hc Hr].
  unfold format_payload. rewrite Hl. cbn. rewrite Hc. cbn. rewrite Hr. reflexivity.
Qed.

Lemma other_topic_is_raw_witness :
  format_payload EdgeScenario.python Scenario.offline "sensors/garden" EdgeScenario.doc_array
  = ([Log INFO ("Message received on topic " ++ "sensors/garden")],
     Ok (Some ("Topic: " ++ "sensors/garden" ++ PyStr.nl ++ "Message: "
               ++ EdgeScenario.doc_array))).
Proof.
  apply (other_topic_is_raw EdgeScenario.python Scenario.offline "sensors/garden"
           EdgeScenario.doc_array (PList [PInt 1; PInt 2]));
    reflexivity.
Defined.

(** X6.  On the two special topics a payload that decodes to anything but
    an object (an array, a string, a number, a boolean, null) is dropped:
    the first method call on it raises an attribute error, which the inner
    handler does not catch, and nothing is sent. *)
Theorem special_topic_needs_object
  (rt : PyRuntime) (cfg : Config) (w : World) (m : MQTTMessage)
  (raw : string) (v : pyval) :
  Edge.special_topic (topic m) = true ->
  payload_decode (payload m) = Ok raw ->
  json_loads rt raw = Ok v ->
  Edge.is_object v = false ->
  format_payload rt w (topic m) raw = ([], Raise AttributeError)
  /\ sent_texts (effects (on_message rt cfg w m)) = [].
Proof.
  unfold Edge.special_topic. intros Ht Hdec Hl Hv.
  assert (Hf : format_payload rt w (topic m) raw = ([], Raise AttributeError)).
  { unfold format_payload. rewrite Hl. cbn.
    destruct (String.eqb (topic m) "OpenwebRX/CLIENT") eqn:Hc; cbn.
    - destruct v; try discriminate; reflexivity.
    - cbn in Ht. rewrite Ht. cbn. destruct v; try discriminate; reflexivity. }
  split; [exact Hf|].
  rewrite on_message_sent. unfold Spec.outbound_text. now rewrite Hdec, Hf.
Qed.

Lemma special_topic_needs_object_witness :
  let m := {| topic := "OpenwebRX/RX"; payload := EdgeScenario.doc_array |} in
  format_payload EdgeScenario.python Scenario.offline (topic m) EdgeScenario.doc_array
  = ([], Raise AttributeError)
  /\ sent_texts (effects (on_message EdgeScenario.python Scenario.verbose
                            Scenario.offline m)) = [].
Proof.
  intros m.
  apply (special_topic_needs_object EdgeScenario.python Scenario.verbose Scenario.offline m
           EdgeScenario.doc_array (PList [PInt 1; PInt 2]));
    reflexivity.
Defined.

(** X7.  A telemetry object with no frequency key is always rendered,
    whatever its values: one [key: value] line per item in received order,
    and the empty text for the empty object. *)
Theorem telemetry_without_freq
  (rt : PyRuntime) (w : World) (raw : string) (d : list (string * pyval)) :
  json_loads rt raw = Ok (PDict d) ->
  Edge.no_freq d = true ->
  outcome (format_payload rt w Spec.telemetry_topic raw)
  = Ok (Some (PyStr.join PyStr.nl
                (map (fun kv => fst kv ++ ": " ++ py_str rt (snd kv)) d)))
  /\ (forall raw',
        json_loads rt raw' = Ok (PDict []) ->
        outcome (format_payload rt w Spec.telemetry_topic raw') = Ok (Some EmptyString)).
Proof.
  intros Hl Hn.
  assert (Hf : outcome (format_payload rt w Spec.telemetry_topic raw)
               = Ok (Some (PyStr.join PyStr.nl (map (plain_part rt) d)))).
  { unfold format_payload, Spec.telemetry_topic. rewrite Hl. cbn.
    now rewrite (EdgeFacts.rx_parts_no_freq rt d Hn). }
  split; [exact Hf|]. intros raw' Hl'.
  unfold format_payload, Spec.telemetry_topic. rewrite Hl'. reflexivity.
Qed.

Lemma telemetry_without_freq_witness :
  outcome (format_payload EdgeScenario.python Scenario.offline Spec.telemetry_topic
             EdgeScenario.doc_no_freq)
  = Ok (Some (PyStr.join PyStr.nl
                (map (fun kv => fst kv ++ ": " ++ py_str EdgeScenario.python (snd kv))
                   [("mode", PStr "FM"); ("squelch", PBool true); ("gain", PInt (-12))])))
  /\ (forall raw',
        json_loads EdgeScenario.python raw' = Ok (PDict []) ->
        outcome (format_payload EdgeScenario.python Scenario.offline Spec.telemetry_topic
                   raw')
        = Ok (Some EmptyString)).
Proof.
  apply (telemetry_without_freq EdgeScenario.python Scenario.offline
           EdgeScenario.doc_no_freq
           [("mode", PStr "FM"); ("squelch", PBool true); ("gain", PInt (-12))]);
    reflexivity.
Defined.

(** X8.  A telemetry object is forwarded exactly when every value under the
    frequency key converts to a float: one value that does not convert
    drops the whole message, the other keys included. *)
Theorem telemetry_sent_iff_freq_converts
  (rt : PyRuntime) (cfg : Config) (w : World) (m : MQTTMessage)
  (raw : string) (d : list (string * pyval)) :
  topic m = Spec.telemetry_topic ->
  payload_decode (payload m) = Ok raw ->
  json_loads rt raw = Ok (PDict d) ->
  (Spec.freq_converts rt d = true
   <-> exists text, sent_texts (effects (on_message rt cfg w m)) = [text])
  /\ (Spec.freq_converts rt d = false
      -> sent_texts (effects (on_message rt cfg w m)) = []).
Proof.
  intros Ht Hdec Hl.
  rewrite on_message_sent. unfold Spec.outbound_text. rewrite Hdec, Ht.
  unfold format_payload, Spec.telemetry_topic. rewrite Hl. cbn.
  destruct (Spec.freq_converts rt d) eqn:C.
  - destruct (rx_parts_lines rt d C) as (parts & Hp & _). rewrite Hp. cbn.
    split; [|discriminate]. split; [intros _; eexists; reflexivity|reflexivity].
  - destruct (EdgeFacts.rx_parts_raises rt d C) as (e & He & Hj). rewrite He. cbn.
    rewrite Hj. cbn.
    split; [|reflexivity]. split; [discriminate|intros [text H]; discriminate].
Qed.

Lemma telemetry_sent_iff_freq_converts_witness :
  let m := {| topic := "OpenwebRX/RX"; payload := EdgeScenario.doc_freq_text |} in
  (Spec.freq_converts EdgeScenario.python [("mode", PStr "FM"); ("freq", PStr "n/a")] = true
   <-> exists text,
         sent_texts (effects (on_message EdgeScenario.python Scenario.quiet
                                Scenario.offline m)) = [text])
  /\ (Spec.freq_converts EdgeScenario.python [("mode", PStr "FM"); ("freq", PStr "n/a")]
      = false
      -> sent_texts (effects (on_message EdgeScenario.python Scenario.quiet
                                Scenario.offline m)) = []).
Proof.
  intros m.
  apply (telemetry_sent_iff_freq_converts EdgeScenario.python Scenario.quiet
           Scenario.offline m EdgeScenario.doc_freq_text
           [("mode", PStr "FM"); ("freq", PStr "n/a")]);
    reflexivity.
Defined.

(** X9.  The debug switches change nothing but DEBUG records: two
    configurations with the same token and chat give the same sends and the
    same INFO and ERROR records, in the same order, for every message. *)
Theorem debug_flags_only_add_debug_records
  (rt : PyRuntime) (cfg1 cfg2 : Config) (w : World) (m : MQTTMessage) :
  TELEGRAM_TOKEN cfg1 = TELEGRAM_TOKEN cfg2 ->
  CHAT_ID cfg1 = CHAT_ID cfg2 ->
  Edge.visible (effects (on_message rt cfg1 w m))
  = Edge.visible (effects (on_message rt cfg2 w m)).
Proof.
  intros Htok Hchat.
  rewrite !on_message_cases.
  destruct (payload_decode (payload m)) as [raw|e]; [|reflexivity].
  cbv zeta.
  destruct (outcome (format_payload rt w (topic m) raw)) as [[text|]|e];
    cbn [effects fst];
    rewrite !EdgeFacts.visible_app, !EdgeFacts.visible_mqtt_debug; try reflexivity.
  rewrite !EdgeFacts.visible_handover, !EdgeFacts.visible_send.
  unfold Spec.delivery_failure_records. now rewrite Htok, Hchat.
Qed.

Lemma debug_flags_only_add_debug_records_witness :
  let m := {| topic := "OpenwebRX/RX"; payload := Scenario.doc_telemetry |} in
  Edge.visible (effects (on_message Scenario.python Scenario.quiet Scenario.offline m))
  = Edge.visible (effects (on_message Scenario.python Scenario.verbose Scenario.offline m)).
Proof.
  intros m.
  apply (debug_flags_only_add_debug_records Scenario.python Scenario.quiet
           Scenario.verbose Scenario.offline m);
    reflexivity.
Defined.

(** X10.  Unless the message is a client-presence payload in the client
    mode and the Connected state, the formatting does not depend on the
    network at all: its text and its records are the same in any two
    worlds. *)
Theorem formatting_ignores_world_unless_connected
  (rt : PyRuntime) (w1 w2 : World) (tp raw : string) :
  Edge.asks_lookup rt tp raw = false ->
  format_payload rt w1 tp raw = format_payload rt w2 tp raw.
Proof.
  unfold Edge.asks_lookup, format_payload.
  destruct (json_loads rt raw) as [p|e]; [|reflexivity]. cbn.
  destruct (String.eqb tp "OpenwebRX/CLIENT"); [|reflexivity].
  destruct p; try reflexivity. cbn.
  destruct (lookup "mode" d) as [mode|]; cbn; [|reflexivity].
  destruct (py_eq_str mode "CLIENT"); cbn; [|reflexivity].
  destruct (normalize_ip _) as [ip|e]; cbn; [|reflexivity].
  destruct (lookup "state" d) as [state|]; cbn; [|reflexivity].
  destruct (py_eq_str state "Connected"); cbn; [discriminate|reflexivity].
Qed.

Lemma formatting_ignores_world_unless_connected_witness :
  format_payload EdgeScenario.python Scenario.offline "OpenwebRX/CLIENT"
    (Scenario.doc_client "Disconnected" "192.0.2.1")
  = format_payload EdgeScenario.python (Scenario.online Scenario.geo_testland)
      "OpenwebRX/CLIENT" (Scenario.doc_client "Disconnected" "192.0.2.1").
Proof.
  apply (formatting_ignores_world_unless_connected EdgeScenario.python Scenario.offline
           (Scenario.online Scenario.geo_testland) "OpenwebRX/CLIENT"
           (Scenario.doc_client "Disconnected" "192.0.2.1")).
  reflexivity.
Defined.

(** X11.  The frequency lines of a telemetry text show the value in MHz to
    the nearest millionth.  For a telemetry payload whose frequencies convert,
    the text handed over has one line per key, and the line of a frequency
    whose quotient is a finite non-zero float reads back, as a decimal
    numeral, to the sign of the quotient and a number of millionths that is
    exact when the exponent is not negative and within half a millionth of
    the quotient otherwise. *)
Theorem freq_lines_nearest_millionth
  (rt : PyRuntime) (cfg : Config) (w : World) (m : MQTTMessage)
  (raw : string) (d : list (string * pyval)) :
  topic m = "OpenwebRX/RX" ->
  payload_decode (payload m) = Ok raw ->
  json_loads rt raw = Ok (PDict d) ->
  Spec.freq_converts rt d = true ->
  exists lines,
    sent_texts (effects (on_message rt cfg w m)) = [PyStr.join PyStr.nl lines]
    /\ List.length lines = List.length d
    /\ forall i v x s mant e,
         nth_error d i = Some ("freq", v) ->
         py_float rt v = Ok x ->
         Spec.mhz x = S754_finite s mant e ->
         exists number q,
           nth_error lines i = Some ("freq: " ++ number ++ " MHz")
           /\ Reading.read_6f number = Some (s, q)
           /\ match e with
              | Zneg p =>
                  2 * Z.abs (Zpos mant * 1000000 - q * 2 ^ Zpos p) <= 2 ^ Zpos p
              | _ => q = Zpos mant * 2 ^ e * 1000000
              end.
Proof.
  intros Ht Hd Hj Hc.
  exists (map (Table.line rt) d).
  split; [|split].
  - destruct (on_message_table rt cfg w m) as [-> _].
    unfold Table.expected, Table.expected_text, Table.telemetry.
    now rewrite Hd, Hj, Ht, Hc.
  - apply List.length_map.
  - intros i v x s mant e Hi Hv Hx.
    exists (Float64.format_6f (Spec.mhz x)), (Float64.micro_units mant e).
    split; [|split].
    + rewrite nth_error_map, Hi. cbn. now rewrite Hv.
    + rewrite Hx. apply ReadingFacts.read_format_6f.
    + apply ReadingFacts.micro_units_near.
Qed.

Lemma freq_lines_nearest_millionth_witness :
  exists lines,
    sent_texts (effects (on_message Scenario.python Scenario.quiet Scenario.offline
                           {| topic := "OpenwebRX/RX"; payload := Scenario.doc_telemetry |}))
    = [PyStr.join PyStr.nl lines]
    /\ List.length lines = List.length [("freq", PInt 433920000); ("mode", PStr "FM")]
    /\ forall i v x s mant e,
         nth_error [("freq", PInt 433920000); ("mode", PStr "FM")] i = Some ("freq", v) ->
         py_float Scenario.python v = Ok x ->
         Spec.mhz x = S754_finite s mant e ->
         exists number q,
           nth_error lines i = Some ("freq: " ++ number ++ " MHz")
           /\ Reading.read_6f number = Some (s, q)
           /\ match e with
              | Zneg p =>
                  2 * Z.abs (Zpos mant * 1000000 - q * 2 ^ Zpos p) <= 2 ^ Zpos p
              | _ => q = Zpos mant * 2 ^ e * 1000000
              end.
Proof.
  apply (freq_lines_nearest_millionth Scenario.python Scenario.quiet Scenario.offline
           {| topic := "OpenwebRX/RX"; payload := Scenario.doc_telemetry |}
           Scenario.doc_telemetry [("freq", PInt 433920000); ("mode", PStr "FM")]);
    reflexivity.
Defined.

(** X12.  Splitting on a separator and joining with it gives the string
    back, and no piece contains the separator. *)
Theorem split_join_round_trip (c : ascii) (s : string) :
  PyStr.join (String c EmptyString) (PyStr.split c s) = s
  /\ Forall (fun piece => PyStr.free_of c piece = true) (PyStr.split c s).
Proof.
  split; [apply EdgeFacts.join_split|].
  induction s as [|d s IH]; simpl.
  - constructor; [reflexivity|constructor].
  - destruct (Ascii.eqb d c) eqn:E.
    + constructor; [reflexivity|exact IH].
    + destruct (PyStr.split c s) as [|u l]; inversion IH; subst.
      * constructor; [simpl; now rewrite E|constructor].
      * constructor; [simpl; rewrite E; assumption|assumption].
Qed.

(** X13.  The sender writes a record at error level exactly when the
    delivery failed, that is when building the [Bot] raised or the awaited
    call raised; a delivered message leaves no error in the log. *)
Theorem sender_errors_iff_delivery_raised (cfg : Config) (w : World) (text : string) :
  existsb Edge.is_error (effects (send_telegram_message cfg w text)) = true
  <-> exists e, Delivery.fails cfg w text e.
Proof.
  rewrite send_cases. cbn [effects fst]. rewrite existsb_app.
  assert (Hd : existsb Edge.is_error (Spec.telegram_debug_records cfg text) = false).
  { unfold Spec.telegram_debug_records.
    now destruct (String.eqb (TELEGRAM_DEBUG cfg) "YES"). }
  rewrite Hd. unfold Delivery.fails. cbn [orb].
  destruct (bot_create w (TELEGRAM_TOKEN cfg)) as [[]|e0].
  - destruct (bot_send_message w _ _ _) as [r|e]; cbn.
    + split; [discriminate|intros [e H]; discriminate].
    + split; [now exists e|reflexivity].
  - cbn. split; [now exists e0|reflexivity].
Qed.

(** ** Properties of the broker callbacks *)

Module BrokerFacts.
Import Broker.

Lemma subscribed_app (a b : list action) :
  subscribed (a ++ b)%list = (subscribed a ++ subscribed b)%list.
Proof.
  induction a as [|x a IH]; simpl; [reflexivity|].
  destruct x; simpl; now rewrite ?IH.
Qed.

Lemma reconnects_app (a b : list action) :
  reconnects (a ++ b)%list = (reconnects a + reconnects b)%nat.
Proof.
  induction a as [|x a IH]; simpl; [reflexivity|].
  destruct x; simpl; now rewrite ?IH.
Qed.

Lemma connects_app (a b : list action) :
  connects (a ++ b)%list = (connects a + connects b)%nat.
Proof.
  induction a as [|x a IH]; simpl; [reflexivity|].
  destruct x; simpl; now rewrite ?IH.
Qed.

Lemma disconnects_app (a b : list action) :
  disconnects (a ++ b)%list = (disconnects a + disconnects b)%nat.
Proof.
  induction a as [|x a IH]; simpl; [reflexivity|].
  destruct x; simpl; now rewrite ?IH.
Qed.

Lemma slept_app (a b : list action) : slept (a ++ b)%list = slept a + slept b.
Proof.
  induction a as [|x a IH]; simpl; [reflexivity|].
  destruct x; simpl; rewrite ?IH; lia.
Qed.

(** The effects of the startup check contain no call of the broker client
    and no pause. *)
Lemma startup_quiet (t : trace) :
  connects (map Startup t) = O
  /\ disconnects (map Startup t) = O
  /\ slept (map Startup t) = 0.
Proof. induction t as [|ev t IH]; simpl; [repeat split|exact IH]. Qed.

(** The subscription loop when every call returns. *)
Lemma subscribe_each_ok (subscribe : string -> result unit) (topics : list string) :
  (forall tp, In tp topics -> subscribe tp = Ok tt) ->
  subscribe_each subscribe topics
  = (flat_map (fun tp => [Subscribe tp 1; Logged Info ("Subscribed to topic: " ++ tp)])
       topics,
     Ok tt).
Proof.
  induction topics as [|tp topics IH]; intros H; [reflexivity|].
  cbn [subscribe_each flat_map app].
  rewrite (H tp) by now left.
  rewrite IH by (intros t Ht; apply H; now right). reflexivity.
Qed.

Lemma subscribed_flat_map (topics : list string) :
  subscribed
    (flat_map (fun tp => [Subscribe tp 1; Logged Info ("Subscribed to topic: " ++ tp)])
       topics)
  = map (fun tp => (tp, 1)) topics.
Proof.
  induction topics as [|tp topics IH]; [reflexivity|].
  cbn [flat_map app subscribed map]. now rewrite IH.
Qed.

Lemma failures_step (c : Client) (i : nat) :
  Z.of_nat (failures c (S i))
  = Z.of_nat (failures c i) + match reconnect c i with Raise _ => 1 | Ok _ => 0 end.
Proof. cbn [failures]. destruct (reconnect c i); lia. Qed.

(** The reconnection loop, from any test on, when the client is seen
    connected [k] tests later. *)
Lemma reconnect_loop_until (c : Client) (k : nat) :
  forall i,
    (forall j, (i <= j < i + k)%nat -> is_connected c j = false) ->
    is_connected c (i + k) = true ->
    exists t,
      (forall fuel, (k < fuel)%nat -> reconnect_loop c fuel i = Some t)
      /\ reconnects t = k
      /\ slept t = 2 * Z.of_nat k
                   + 3 * (Z.of_nat (failures c (i + k)) - Z.of_nat (failures c i)).
Proof.
  induction k as [|k IH]; intros i Hno Hyes.
  - rewrite Nat.add_0_r in *. exists []. repeat split.
    + intros [|fuel] Hf; [lia|]. simpl. now rewrite Hyes.
    + cbn [slept]. lia.
  - destruct (IH (S i)) as (t & Hrun & Hrec & Hsl).
    { intros j Hj. apply Hno. lia. }
    { replace (S i + k)%nat with (i + S k)%nat by lia. exact Hyes. }
    replace (S i + k)%nat with (i + S k)%nat in Hsl by lia.
    assert (Hi : is_connected c i = false) by (apply Hno; lia).
    destruct (reconnect c i) as [u|e] eqn:R.
    + exists ([Logged Info "Attempting to reconnect..."; Reconnect; Sleep 2] ++ t)%list.
      repeat split.
      * intros [|fuel] Hf; [lia|]. simpl. rewrite Hi, R, (Hrun fuel) by lia. reflexivity.
      * simpl. now rewrite Hrec.
      * rewrite slept_app, Hsl. cbn [slept].
        replace (i + S k)%nat with (S (i + k)) by lia.
        pose proof (failures_step c i) as Hstep. rewrite R in Hstep. lia.
    + exists ([Logged Info "Attempting to reconnect..."; Reconnect;
               LoggedExc Error "Reconnection failed: " e; Sleep 5] ++ t)%list.
      repeat split.
      * intros [|fuel] Hf; [lia|]. simpl. rewrite Hi, R, (Hrun fuel) by lia. reflexivity.
      * simpl. now rewrite Hrec.
      * rewrite slept_app, Hsl. cbn [slept].
        replace (i + S k)%nat with (S (i + k)) by lia.
        pose proof (failures_step c i) as Hstep. rewrite R in Hstep. lia.
Qed.

Lemma reconnect_loop_forever (c : Client) :
  (forall i, is_connected c i = false) ->
  forall fuel i, reconnect_loop c fuel i = None.
Proof.
  intros H. induction fuel as [|fuel IH]; intros i; simpl; [reflexivity|].
  now rewrite H, IH.
Qed.

End BrokerFacts.

(** X14.  When no subscription call raises, the connection callback returns
    normally and subscribes to every configured topic exactly once, in the
    configured order and at quality of service 1, if the reason code is zero,
    and to nothing otherwise; on success each subscription is followed by its
    info record. *)
Theorem on_connect_subscribes_iff_success
  (topics : list string) (subscribe : string -> result unit) (rc : Broker.ReasonCode) :
  (forall tp, In tp topics -> subscribe tp = Ok tt) ->
  snd (Broker.on_connect topics subscribe rc) = Ok tt
  /\ Broker.subscribed (fst (Broker.on_connect topics subscribe rc))
     = (if Broker.code rc =? 0 then map (fun tp => (tp, 1)) topics else [])
  /\ (Broker.code rc = 0 ->
      fst (Broker.on_connect topics subscribe rc)
      = Broker.Logged Broker.Info "Connected to MQTT broker successfully"
        :: flat_map (fun tp => [Broker.Subscribe tp 1;
                                Broker.Logged Broker.Info ("Subscribed to topic: " ++ tp)])
             topics).
Proof.
  intros H. unfold Broker.on_connect.
  rewrite (BrokerFacts.subscribe_each_ok subscribe topics H).
  destruct (Broker.code rc =? 0) eqn:E; cbn [fst snd].
  - split; [reflexivity|]. split; [|reflexivity].
    cbn [Broker.subscribed]. apply BrokerFacts.subscribed_flat_map.
  - split; [reflexivity|]. split; [reflexivity|].
    intros Hc. rewrite Hc in E. discriminate.
Qed.

Lemma on_connect_subscribes_iff_success_witness :
  snd (Broker.on_connect BrokerScenario.topics BrokerScenario.accepts BrokerScenario.success)
  = Ok tt
  /\ Broker.subscribed (fst (Broker.on_connect BrokerScenario.topics BrokerScenario.accepts
                               BrokerScenario.success))
     = (if Broker.code BrokerScenario.success =? 0
        then map (fun tp => (tp, 1)) BrokerScenario.topics else [])
  /\ (Broker.code BrokerScenario.success = 0 ->
      fst (Broker.on_connect BrokerScenario.topics BrokerScenario.accepts
             BrokerScenario.success)
      = Broker.Logged Broker.Info "Connected to MQTT broker successfully"
        :: flat_map (fun tp => [Broker.Subscribe tp 1;
                                Broker.Logged Broker.Info ("Subscribed to topic: " ++ tp)])
             BrokerScenario.topics).
Proof.
  apply (on_connect_subscribes_iff_success BrokerScenario.topics BrokerScenario.accepts
           BrokerScenario.success).
  intros tp _. reflexivity.
Defined.

(** X15.  A subscription call that raises ends the connection callback with
    that exception: the topics before the failing one are subscribed, the
    failing call is the last one, and no later topic is subscribed. *)
Theorem on_connect_stops_at_first_failure
  (topics before after : list string) (tp : string)
  (subscribe : string -> result unit) (rc : Broker.ReasonCode) (e : exn) :
  Broker.code rc = 0 ->
  topics = (before ++ tp :: after)%list ->
  (forall t, In t before -> subscribe t = Ok tt) ->
  subscribe tp = Raise e ->
  snd (Broker.on_connect topics subscribe rc) = Raise e
  /\ Broker.subscribed (fst (Broker.on_connect topics subscribe rc))
     = map (fun t => (t, 1)) (before ++ [tp])%list.
Proof.
  intros Hc -> Hb He. unfold Broker.on_connect. rewrite Hc. cbn [Z.eqb].
  assert (Hs : snd (Broker.subscribe_each subscribe (before ++ tp :: after)%list) = Raise e
               /\ Broker.subscribed
                    (fst (Broker.subscribe_each subscribe (before ++ tp :: after)%list))
                  = map (fun t => (t, 1)) (before ++ [tp])%list).
  { induction before as [|b before IH]; simpl.
    - rewrite He. split; reflexivity.
    - rewrite (Hb b) by now left.
      destruct IH as [IH1 IH2]; [intros t Ht; apply Hb; now right|].
      destruct (Broker.subscribe_each subscribe (before ++ tp :: after)%list) as [t r].
      cbn [fst snd] in *. split; [exact IH1|]. simpl. now rewrite IH2. }
  destruct (Broker.subscribe_each subscribe (before ++ tp :: after)%list) as [t r].
  cbn [fst snd] in *. exact Hs.
Qed.

Lemma on_connect_stops_at_first_failure_witness :
  snd (Broker.on_connect BrokerScenario.topics BrokerScenario.rejects_rx
         BrokerScenario.success)
  = Raise ValueError
  /\ Broker.subscribed (fst (Broker.on_connect BrokerScenario.topics
                               BrokerScenario.rejects_rx BrokerScenario.success))
     = map (fun t => (t, 1)) (["OpenwebRX/CLIENT"] ++ ["OpenwebRX/RX"])%list.
Proof.
  apply (on_connect_stops_at_first_failure BrokerScenario.topics ["OpenwebRX/CLIENT"]
           ["sensors/#"] "OpenwebRX/RX" BrokerScenario.rejects_rx BrokerScenario.success
           ValueError);
    try reflexivity.
  intros t [<-|[]]. reflexivity.
Defined.

(** X16.  After an unexpected disconnection, if the client is first seen
    connected at its [k]-th test, the callback returns for any supply of
    iterations above [k], with the same effects: the warning, then exactly
    [k] reconnection calls, and pauses of two seconds after each call that
    returned and five after each that raised. *)
Theorem on_disconnect_reconnects_until_connected
  (c : Broker.Client) (rc : Broker.ReasonCode) (k : nat) :
  Broker.code rc <> 0 ->
  (forall i, (i < k)%nat -> Broker.is_connected c i = false) ->
  Broker.is_connected c k = true ->
  exists t,
    (forall fuel, (k < fuel)%nat ->
       Broker.on_disconnect c fuel rc
       = Some (Broker.Logged Broker.Warning
                 ("Disconnected from MQTT broker with reason code: "
                  ++ Broker.code_text rc) :: t))
    /\ Broker.reconnects t = k
    /\ Broker.slept t = 2 * Z.of_nat k + 3 * Z.of_nat (Broker.failures c k).
Proof.
  intros Hc Hno Hyes.
  destruct (BrokerFacts.reconnect_loop_until c k 0) as (t & Hrun & Hrec & Hsl).
  { intros j Hj. apply Hno. lia. }
  { exact Hyes. }
  exists t. split; [|split; [exact Hrec|]].
  - intros fuel Hf. unfold Broker.on_disconnect.
    apply Z.eqb_neq in Hc. rewrite Hc. cbn [negb]. now rewrite (Hrun fuel Hf).
  - rewrite Hsl. cbn [Nat.add Broker.failures]. lia.
Qed.

Lemma on_disconnect_reconnects_until_connected_witness :
  exists t,
    (forall fuel, (3 < fuel)%nat ->
       Broker.on_disconnect BrokerScenario.flaky fuel BrokerScenario.keep_alive_timeout
       = Some (Broker.Logged Broker.Warning
                 ("Disconnected from MQTT broker with reason code: "
                  ++ Broker.code_text BrokerScenario.keep_alive_timeout) :: t))
    /\ Broker.reconnects t = 3%nat
    /\ Broker.slept t
       = 2 * Z.of_nat 3 + 3 * Z.of_nat (Broker.failures BrokerScenario.flaky 3).
Proof.
  apply (on_disconnect_reconnects_until_connected BrokerScenario.flaky
           BrokerScenario.keep_alive_timeout 3).
  - discriminate.
  - intros [|[|[|i]]] Hi; try reflexivity. lia.
  - reflexivity.
Defined.

(** X17.  After an unexpected disconnection the callback never gives up:
    while the client is not seen connected it goes on reconnecting, and no
    number of iterations makes it return. *)
Theorem on_disconnect_never_gives_up (c : Broker.Client) (rc : Broker.ReasonCode) :
  Broker.code rc <> 0 ->
  (forall i, Broker.is_connected c i = false) ->
  forall fuel, Broker.on_disconnect c fuel rc = None.
Proof.
  intros Hc H fuel. unfold Broker.on_disconnect.
  apply Z.eqb_neq in Hc. rewrite Hc. cbn [negb].
  now rewrite BrokerFacts.reconnect_loop_forever.
Qed.

Lemma on_disconnect_never_gives_up_witness :
  Broker.on_disconnect BrokerScenario.unreachable 1000 BrokerScenario.keep_alive_timeout
  = None.
Proof.
  apply (on_disconnect_never_gives_up BrokerScenario.unreachable
           BrokerScenario.keep_alive_timeout).
  - discriminate.
  - intros i. reflexivity.
Defined.

(** ** Properties of the startup check and of the service loop *)

Module StartupFacts.
Import Broker.

(** The startup check, case by case. *)
Lemma verify_cases (cfg : Config) (w : World) (tg : Telegram) :
  verify_bot_connection cfg w tg
  = let token := TELEGRAM_TOKEN cfg in
    let announcement := "MQTT Bridge Service Started" in
    let failed (t : trace) (e : exn) : M unit :=
      if is_telegram_error tg e
      then ((t ++ [LogExc ERROR "Failed to send startup message: " e])%list, Raise e)
      else (t, Raise e) in
    let initialized :=
      Log INFO ("Telegram bot initialized with token: " ++ PyStr.take 10 token ++ "...") in
    match new_bot tg token with
    | Raise e => failed [] e
    | Ok _ =>
        match get_me tg token with
        | Raise e => failed [initialized] e
        | Ok username =>
            let verified :=
              Log INFO ("Bot connection verified. Bot username: @" ++ username) in
            match bot_send_message w token (CHAT_ID cfg) announcement with
            | Raise e => failed [initialized; verified; Send (CHAT_ID cfg) announcement] e
            | Ok _ =>
                ([initialized; verified; Send (CHAT_ID cfg) announcement;
                  Log INFO "Sent startup message to Telegram"],
                 Ok tt)
            end
        end
    end.
Proof.
  unfold verify_bot_connection. cbv zeta.
  destruct (new_bot tg _) as [u|e]; cbn.
  2:{ destruct (is_telegram_error tg e); reflexivity. }
  destruct (get_me tg _) as [username|e]; cbn.
  2:{ destruct (is_telegram_error tg e); reflexivity. }
  destruct (bot_send_message w _ _ _) as [r|e]; cbn; [reflexivity|].
  destruct (is_telegram_error tg e); reflexivity.
Qed.

(** Rounds [n] to [n + k - 1] of the service loop, when none of them is
    interrupted: [k] connections, no disconnection, five seconds of pause
    for each round that ended with an exception. *)
Lemma serve_skip (host : string) (port : Z) (s : Service) (k : nat) :
  forall n,
    (forall i, (n <= i < n + k)%nat ->
               interrupted s i = false /\ pause_interrupted s i = false) ->
    exists pre,
      connects pre = k
      /\ disconnects pre = O
      /\ slept pre = 5 * (Z.of_nat (crashes s (n + k)) - Z.of_nat (crashes s n))
      /\ forall fuel,
           serve host port s (k + fuel) n
           = match serve host port s fuel (n + k) with
             | Some (t, st) => Some ((pre ++ t)%list, st)
             | None => None
             end.
Proof.
  induction k as [|k IH]; intros n H.
  - exists []. rewrite Nat.add_0_r. repeat split; [cbn [slept]; lia|].
    intros fuel. cbn [Nat.add app]. now destruct (serve host port s fuel n) as [[t st]|].
  - destruct (IH (S n)) as (pre & Hc & Hd & Hs & Hrun).
    { intros i Hi. apply H. lia. }
    destruct (H n ltac:(lia)) as [Hi Hp].
    replace (S n + k)%nat with (n + S k)%nat in * by lia.
    unfold interrupted, pause_interrupted in Hi, Hp.
    assert (Hstep : Z.of_nat (crashes s (S n))
                    = Z.of_nat (crashes s n)
                      + match connect s n with
                        | Raises _ => 1
                        | Returns => match loop_forever s n with Raises _ => 1 | _ => 0 end
                        | Interrupt => 0
                        end).
    { cbn [crashes]. destruct (connect s n); [destruct (loop_forever s n)| |]; lia. }
    destruct (connect s n) as [|e|] eqn:C; [|clear Hi|discriminate].
    + destruct (loop_forever s n) as [|e|] eqn:L; [| |discriminate].
      * exists ([Connect host port 60; LoopForever] ++ pre)%list.
        rewrite BrokerFacts.connects_app, BrokerFacts.disconnects_app, BrokerFacts.slept_app, Hc, Hd, Hs.
        repeat split; [cbn [slept]; lia|].
        intros fuel. cbn [Nat.add serve]. rewrite C, L, (Hrun fuel).
        destruct (serve host port s fuel (n + S k)) as [[t st]|]; [|reflexivity].
        now rewrite <- app_assoc.
      * exists (([Connect host port 60; LoopForever]
                 ++ [LoggedExc Error "Connection error: " e; Sleep 5]) ++ pre)%list.
        rewrite BrokerFacts.connects_app, BrokerFacts.disconnects_app, BrokerFacts.slept_app, Hc, Hd, Hs.
        repeat split; [cbn [slept app]; lia|].
        intros fuel. cbn [Nat.add serve]. rewrite C, L, Hp, (Hrun fuel).
        destruct (serve host port s fuel (n + S k)) as [[t st]|]; [|reflexivity].
        now rewrite <- !app_assoc.
    + exists (([Connect host port 60]
               ++ [LoggedExc Error "Connection error: " e; Sleep 5]) ++ pre)%list.
      rewrite BrokerFacts.connects_app, BrokerFacts.disconnects_app, BrokerFacts.slept_app, Hc, Hd, Hs.
      repeat split; [cbn [slept app]; lia|].
      intros fuel. cbn [Nat.add serve]. rewrite C, Hp, (Hrun fuel).
      destruct (serve host port s fuel (n + S k)) as [[t st]|]; [|reflexivity].
      now rewrite <- !app_assoc.
Qed.

Lemma serve_forever (host : string) (port : Z) (s : Service) :
  (forall i, interrupted s i = false /\ pause_interrupted s i = false) ->
  forall fuel n, serve host port s fuel n = None.
Proof.
  intros H. induction fuel as [|fuel IH]; intros n; [reflexivity|].
  destruct (H n) as [Hi Hp]. unfold interrupted, pause_interrupted in Hi, Hp.
  cbn [serve]. rewrite (IH (S n)).
  destruct (connect s n); [destruct (loop_forever s n)| |];
    try discriminate; try reflexivity; now rewrite Hp.
Qed.

End StartupFacts.

(** X18.  The startup check never swallows a failure: it returns normally
    only when building the bot, the identity request and the announcement
    all succeed, and otherwise ends with the exception of the first step
    that raised, whether or not it is a Telegram error. *)
Theorem startup_check_never_swallows (cfg : Config) (w : World) (tg : Broker.Telegram) :
  outcome (Broker.verify_bot_connection cfg w tg)
  = match Broker.new_bot tg (TELEGRAM_TOKEN cfg) with
    | Raise e => Raise e
    | Ok _ =>
        match Broker.get_me tg (TELEGRAM_TOKEN cfg) with
        | Raise e => Raise e
        | Ok _ =>
            match bot_send_message w (TELEGRAM_TOKEN cfg) (CHAT_ID cfg)
                    "MQTT Bridge Service Started" with
            | Raise e => Raise e
            | Ok _ => Ok tt
            end
        end
    end.
Proof.
  rewrite StartupFacts.verify_cases. cbv zeta.
  destruct (Broker.new_bot tg _) as [u|e].
  2:{ now destruct (Broker.is_telegram_error tg e). }
  destruct (Broker.get_me tg _) as [username|e].
  2:{ now destruct (Broker.is_telegram_error tg e). }
  destruct (bot_send_message w _ _ _) as [r|e]; [reflexivity|].
  now destruct (Broker.is_telegram_error tg e).
Qed.

(** X19.  The startup announcement is handed to the client at most once,
    and only after the bot was built and the identity request answered: a
    failure of either sends nothing. *)
Theorem startup_announces_after_identity
  (cfg : Config) (w : World) (tg : Broker.Telegram) :
  sent_texts (effects (Broker.verify_bot_connection cfg w tg))
  = match Broker.new_bot tg (TELEGRAM_TOKEN cfg), Broker.get_me tg (TELEGRAM_TOKEN cfg) with
    | Ok _, Ok _ => ["MQTT Bridge Service Started"]
    | _, _ => []
    end.
Proof.
  rewrite StartupFacts.verify_cases. cbv zeta.
  destruct (Broker.new_bot tg _) as [u|e].
  2:{ now destruct (Broker.is_telegram_error tg e). }
  destruct (Broker.get_me tg _) as [username|e].
  2:{ now destruct (Broker.is_telegram_error tg e). }
  destruct (bot_send_message w _ _ _) as [r|e]; [reflexivity|].
  now destruct (Broker.is_telegram_error tg e).
Qed.

(** X20.  When the startup check fails, it writes an error record exactly
    when the exception is a Telegram error; any other exception leaves the
    function with no record of its own. *)
Theorem startup_logs_telegram_errors_only
  (cfg : Config) (w : World) (tg : Broker.Telegram) (e : exn) :
  outcome (Broker.verify_bot_connection cfg w tg) = Raise e ->
  existsb Edge.is_error (effects (Broker.verify_bot_connection cfg w tg))
  = Broker.is_telegram_error tg e.
Proof.
  rewrite StartupFacts.verify_cases. cbv zeta.
  destruct (Broker.new_bot tg _) as [u|e1].
  2:{ destruct (Broker.is_telegram_error tg e1) eqn:T; intros [= <-]; now rewrite T. }
  destruct (Broker.get_me tg _) as [username|e1].
  2:{ destruct (Broker.is_telegram_error tg e1) eqn:T; intros [= <-]; now rewrite T. }
  destruct (bot_send_message w _ _ _) as [r|e1]; [discriminate|].
  destruct (Broker.is_telegram_error tg e1) eqn:T; intros [= <-]; now rewrite T.
Qed.

Lemma startup_logs_telegram_errors_only_witness :
  existsb Edge.is_error
    (effects (Broker.verify_bot_connection Scenario.quiet
                (Scenario.online Scenario.geo_fail) BrokerScenario.telegram_broken))
  = Broker.is_telegram_error BrokerScenario.telegram_broken (OtherError "RuntimeError").
Proof.
  apply (startup_logs_telegram_errors_only Scenario.quiet
           (Scenario.online Scenario.geo_fail) BrokerScenario.telegram_broken
           (OtherError "RuntimeError")).
  reflexivity.
Defined.

(** X21.  A failed startup check is fatal: the program logs the fatal error
    after the effects of the check and ends, without a single call of the
    broker client, whatever the broker would have done. *)
Theorem startup_failure_is_fatal
  (host : string) (port : Z) (cfg : Config) (w : World) (tg : Broker.Telegram)
  (s : Broker.Service) (fuel : nat) (e : exn) :
  outcome (Broker.verify_bot_connection cfg w tg) = Raise e ->
  exists t,
    Broker.main host port cfg w tg s fuel = Some (t, Broker.Fatal e)
    /\ t = (map Broker.Startup (effects (Broker.verify_bot_connection cfg w tg))
            ++ [Broker.LoggedExc Broker.Critical "Fatal error: " e])%list
    /\ Broker.connects t = O.
Proof.
  intros H. unfold Broker.main.
  destruct (Broker.verify_bot_connection cfg w tg) as [tv r].
  cbn [outcome effects fst snd] in *. subst r.
  eexists. split; [reflexivity|]. split; [reflexivity|].
  rewrite BrokerFacts.connects_app.
  now destruct (BrokerFacts.startup_quiet tv) as [-> _].
Qed.

Lemma startup_failure_is_fatal_witness :
  exists t,
    Broker.main "broker.example" 1883 Scenario.quiet (Scenario.online Scenario.geo_fail)
      BrokerScenario.telegram_rejects BrokerScenario.interrupted_in_third_round 0
    = Some (t, Broker.Fatal (OtherError "InvalidToken"))
    /\ t = (map Broker.Startup
              (effects (Broker.verify_bot_connection Scenario.quiet
                          (Scenario.online Scenario.geo_fail)
                          BrokerScenario.telegram_rejects))
            ++ [Broker.LoggedExc Broker.Critical "Fatal error: "
                  (OtherError "InvalidToken")])%list
    /\ Broker.connects t = O.
Proof.
  apply (startup_failure_is_fatal "broker.example" 1883 Scenario.quiet
           (Scenario.online Scenario.geo_fail) BrokerScenario.telegram_rejects
           BrokerScenario.interrupted_in_third_round 0 (OtherError "InvalidToken")).
  reflexivity.
Defined.

(** X22.  After a successful startup the service ends by [break] exactly at
    the first round that is interrupted inside the inner [try]: if that is
    round [k], the broker was connected to [k + 1] times, the pauses add up
    to five seconds for each earlier round that ended with an exception, and
    the trace ends with the stop record and the one disconnection. *)
Theorem service_stops_at_first_interrupt
  (host : string) (port : Z) (cfg : Config) (w : World) (tg : Broker.Telegram)
  (s : Broker.Service) (k : nat) :
  outcome (Broker.verify_bot_connection cfg w tg) = Ok tt ->
  Broker.new_client s = Ok tt ->
  Broker.disconnect s = Ok tt ->
  (forall i, (i < k)%nat ->
             Broker.interrupted s i = false /\ Broker.pause_interrupted s i = false) ->
  Broker.interrupted s k = true ->
  exists t before,
    (forall fuel, (k < fuel)%nat ->
       Broker.main host port cfg w tg s fuel = Some (t, Broker.Stopped))
    /\ t = (before ++ [Broker.Logged Broker.Info "Service stopped by user";
                       Broker.Disconnect])%list
    /\ Broker.connects t = S k
    /\ Broker.disconnects t = 1%nat
    /\ Broker.slept t = 5 * Z.of_nat (Broker.crashes s k).
Proof.
  intros Hv Hnew Hdis Hquiet Hint.
  destruct (StartupFacts.serve_skip host port s k 0) as (pre & Hc & Hd & Hs & Hrun).
  { intros i Hi. apply Hquiet. lia. }
  cbn [Nat.add] in *.
  destruct (Broker.verify_bot_connection cfg w tg) as [tv r] eqn:V.
  cbn [outcome snd] in Hv. subst r.
  destruct (BrokerFacts.startup_quiet tv) as (Qc & Qd & Qs).
  assert (Hk : exists head,
             (forall fuel, Broker.serve host port s (S fuel) k
                           = Some ((head ++ [Broker.Logged Broker.Info "Service stopped by user";
                                             Broker.Disconnect])%list, Broker.Stopped))
             /\ Broker.connects head = 1%nat
             /\ Broker.disconnects head = O
             /\ Broker.slept head = 0).
  { unfold Broker.interrupted in Hint.
    destruct (Broker.connect s k) eqn:C; try discriminate.
    - destruct (Broker.loop_forever s k) eqn:L; try discriminate.
      exists [Broker.Connect host port 60; Broker.LoopForever].
      split; [|repeat split].
      intros fuel. cbn [Broker.serve]. rewrite C, L. unfold Broker.stop. now rewrite Hdis.
    - exists [Broker.Connect host port 60].
      split; [|repeat split].
      intros fuel. cbn [Broker.serve]. rewrite C. unfold Broker.stop. now rewrite Hdis. }
  destruct Hk as (head & Hserve & Kc & Kd & Ks).
  exists ((map Broker.Startup tv ++ pre ++ head)
          ++ [Broker.Logged Broker.Info "Service stopped by user"; Broker.Disconnect])%list,
         (map Broker.Startup tv ++ pre ++ head)%list.
  split; [|split; [reflexivity|]].
  - intros fuel Hf. unfold Broker.main. rewrite V, Hnew.
    replace fuel with (k + S (fuel - S k))%nat by lia.
    rewrite Hrun, Hserve. now rewrite <- !app_assoc.
  - rewrite !BrokerFacts.connects_app, !BrokerFacts.disconnects_app,
      !BrokerFacts.slept_app, Qc, Qd, Qs, Hc, Hd, Hs, Kc, Kd, Ks.
    cbn [Broker.connects Broker.disconnects Broker.slept Broker.crashes].
    repeat split; lia.
Qed.

Lemma service_stops_at_first_interrupt_witness :
  exists t before,
    (forall fuel, (2 < fuel)%nat ->
       Broker.main "broker.example" 1883 Scenario.quiet (Scenario.online Scenario.geo_fail)
         BrokerScenario.telegram_up BrokerScenario.interrupted_in_third_round fuel
       = Some (t, Broker.Stopped))
    /\ t = (before ++ [Broker.Logged Broker.Info "Service stopped by user";
                       Broker.Disconnect])%list
    /\ Broker.connects t = 3%nat
    /\ Broker.disconnects t = 1%nat
    /\ Broker.slept t
       = 5 * Z.of_nat (Broker.crashes BrokerScenario.interrupted_in_third_round 2).
Proof.
  apply (service_stops_at_first_interrupt "broker.example" 1883 Scenario.quiet
           (Scenario.online Scenario.geo_fail) BrokerScenario.telegram_up
           BrokerScenario.interrupted_in_third_round 2);
    try reflexivity.
  intros [|[|i]] Hi; [split; reflexivity|split; reflexivity|lia].
Defined.

(** X23.  After a successful startup the service never ends by itself: as
    long as no round is interrupted it reconnects after every failure and
    after every return of the network loop, for any number of rounds. *)
Theorem service_runs_until_interrupted
  (host : string) (port : Z) (cfg : Config) (w : World) (tg : Broker.Telegram)
  (s : Broker.Service) :
  outcome (Broker.verify_bot_connection cfg w tg) = Ok tt ->
  Broker.new_client s = Ok tt ->
  (forall i, Broker.interrupted s i = false /\ Broker.pause_interrupted s i = false) ->
  forall fuel, Broker.main host port cfg w tg s fuel = None.
Proof.
  intros Hv Hnew Hquiet fuel. unfold Broker.main.
  destruct (Broker.verify_bot_connection cfg w tg) as [tv r].
  cbn [outcome snd] in Hv. subst r. rewrite Hnew.
  now rewrite (StartupFacts.serve_forever host port s Hquiet).
Qed.

Lemma service_runs_until_interrupted_witness :
  Broker.main "broker.example" 1883 Scenario.quiet (Scenario.online Scenario.geo_fail)
    BrokerScenario.telegram_up BrokerScenario.never_reachable 1000
  = None.
Proof.
  apply (service_runs_until_interrupted "broker.example" 1883 Scenario.quiet
           (Scenario.online Scenario.geo_fail) BrokerScenario.telegram_up
           BrokerScenario.never_reachable);
    try reflexivity.
  intros i. split; reflexivity.
Defined.

(** X24.  An interrupt that arrives during the five-second pause after a
    failed round is not handled: the program is left by the uncaught
    interrupt, with no stop record and without disconnecting from the
    broker. *)
Theorem interrupt_during_pause_is_not_handled
  (host : string) (port : Z) (cfg : Config) (w : World) (tg : Broker.Telegram)
  (s : Broker.Service) (k : nat) :
  outcome (Broker.verify_bot_connection cfg w tg) = Ok tt ->
  Broker.new_client s = Ok tt ->
  (forall i, (i < k)%nat ->
             Broker.interrupted s i = false /\ Broker.pause_interrupted s i = false) ->
  Broker.pause_interrupted s k = true ->
  exists t before,
    (forall fuel, (k < fuel)%nat ->
       Broker.main host port cfg w tg s fuel = Some (t, Broker.Killed))
    /\ t = (before ++ [Broker.Sleep 5])%list
    /\ Broker.connects t = S k
    /\ Broker.disconnects t = O.
Proof.
  intros Hv Hnew Hquiet Hint.
  destruct (StartupFacts.serve_skip host port s k 0) as (pre & Hc & Hd & Hs & Hrun).
  { intros i Hi. apply Hquiet. lia. }
  cbn [Nat.add] in *.
  destruct (Broker.verify_bot_connection cfg w tg) as [tv r] eqn:V.
  cbn [outcome snd] in Hv. subst r.
  destruct (BrokerFacts.startup_quiet tv) as (Qc & Qd & Qs).
  assert (Hk : exists head,
             (forall fuel, Broker.serve host port s (S fuel) k
                           = Some ((head ++ [Broker.Sleep 5])%list, Broker.Killed))
             /\ Broker.connects head = 1%nat
             /\ Broker.disconnects head = O).
  { unfold Broker.pause_interrupted in Hint.
    destruct (Broker.connect s k) as [|e|] eqn:C; try discriminate.
    - destruct (Broker.loop_forever s k) as [|e|] eqn:L; try discriminate.
      exists [Broker.Connect host port 60; Broker.LoopForever;
              Broker.LoggedExc Broker.Error "Connection error: " e].
      split; [|repeat split].
      intros fuel. cbn [Broker.serve]. now rewrite C, L, Hint.
    - exists [Broker.Connect host port 60;
              Broker.LoggedExc Broker.Error "Connection error: " e].
      split; [|repeat split].
      intros fuel. cbn [Broker.serve]. now rewrite C, Hint. }
  destruct Hk as (head & Hserve & Kc & Kd).
  exists ((map Broker.Startup tv ++ pre ++ head) ++ [Broker.Sleep 5])%list,
         (map Broker.Startup tv ++ pre ++ head)%list.
  split; [|split; [reflexivity|]].
  - intros fuel Hf. unfold Broker.main. rewrite V, Hnew.
    replace fuel with (k + S (fuel - S k))%nat by lia.
    rewrite Hrun, Hserve. now rewrite <- !app_assoc.
  - rewrite !BrokerFacts.connects_app, !BrokerFacts.disconnects_app, Qc, Qd, Hc, Hd, Kc, Kd.
    cbn [Broker.connects Broker.disconnects]. split; lia.
Qed.

Lemma interrupt_during_pause_is_not_handled_witness :
  exists t before,
    (forall fuel, (1 < fuel)%nat ->
       Broker.main "broker.example" 1883 Scenario.quiet (Scenario.online Scenario.geo_fail)
         BrokerScenario.telegram_up BrokerScenario.interrupted_in_pause fuel
       = Some (t, Broker.Killed))
    /\ t = (before ++ [Broker.Sleep 5])%list
    /\ Broker.connects t = 2%nat
    /\ Broker.disconnects t = O.
Proof.
  apply (interrupt_during_pause_is_not_handled "broker.example" 1883 Scenario.quiet
           (Scenario.online Scenario.geo_fail) BrokerScenario.telegram_up
           BrokerScenario.interrupted_in_pause 1);
    try reflexivity.
  intros [|i] Hi; [split; reflexivity|lia].
Defined.
